(** * AD5628 (DAC) and AD7193 (ADC) SPI drivers: command encoding

    A shallow embedding of [AD5628/AD5628.py] and [AD7193/AD7193.py].

    - Python [int] is [Z]; [<<], [|] and [&] are [Z.shiftl], [Z.lor] and
      [Z.land] (both are two's complement on unbounded integers).  A shift by
      a count that may be negative goes through [Py.lshift], which raises as
      Python does.
    - Python [bytes] / [bytearray] is [list byte].
    - Exceptions are values of [Py.exn]; a method is a function from the
      state of the world to a result and the next state.
    - The world is the SPI device (the events put on the wire, the bytes the
      chip will shift out on MISO) and a count, in microseconds, of the time
      the driver has asked to pass; [time.sleep(0.001)] is [Spi.sleep 1000].
    - Python [float] is binary64, [PrimFloat.float].  What [time.monotonic()]
      returns is not computed: the readings of the clock are given from
      outside, call after call, and compared as the code compares them. *)

From Stdlib Require Import ZArith List String Bool Lia Sorted.
From Corelib Require Import PrimFloat.
From coqutil Require Import Byte.
Import ListNotations.

Local Open Scope string_scope.
Local Open Scope list_scope.
Local Open Scope Z_scope.

(** Decimal literals stand for the nearest binary64 value, as in Python. *)
#[local] Set Warnings "-inexact-float".

(* ------------------------------------------------------------------------- *)
(** ** The part of the Python runtime the drivers use *)

Module Py.

Inductive exn : Type :=
| ValueError (msg : string)
| TypeError (msg : string)
| OverflowError (msg : string)
| IndexError (msg : string)
| KeyError (key : Z)
| TimeoutError (msg : string).

Inductive result (A : Type) : Type :=
| Ok (a : A)
| Raise (e : exn).
Arguments Ok {A} a.
Arguments Raise {A} e.

(** The objects that reach the [value] parameter of the ADC's
    [write_register]: an [int] or a [bytes]. *)
Inductive obj : Type :=
| Int (z : Z)
| Bytes (b : list byte).

(** [a << n] *)
Definition lshift (a n : Z) : result Z :=
  if n <? 0 then Raise (ValueError "negative shift count")
  else Ok (Z.shiftl a n).

(** [not x] for an int [x] *)
Definition not_int (x : Z) : bool := x =? 0.

(** Truth value of an int, as tested by [if x:] *)
Definition truthy (x : Z) : bool := negb (x =? 0).

(** The [length] low-order base-256 digits of [value], most significant
    first. *)
Fixpoint be_bytes (length : nat) (value : Z) : list byte :=
  match length with
  | O => []
  | S n => be_bytes n (value / 256) ++ [byte.of_Z value]
  end.

(** [value.to_bytes(length, 'big')] (unsigned) *)
Definition to_bytes (value : Z) (length : nat) : result (list byte) :=
  if value <? 0 then
    Raise (OverflowError "can't convert negative int to unsigned")
  else if 256 ^ Z.of_nat length <=? value then
    Raise (OverflowError "int too big to convert")
  else Ok (be_bytes length value).

(** [int.from_bytes(b, 'big')] *)
Definition from_bytes (b : list byte) : Z :=
  fold_left (fun acc x => acc * 256 + byte.unsigned x) b 0.

(** [bytes([x0, x1, ...])] *)
Fixpoint bytes_of_ints (l : list Z) : result (list byte) :=
  match l with
  | [] => Ok []
  | x :: rest =>
      if (0 <=? x) && (x <? 256) then
        match bytes_of_ints rest with
        | Ok bs => Ok (byte.of_Z x :: bs)
        | Raise e => Raise e
        end
      else Raise (ValueError "bytes must be in range(0, 256)")
  end.

(** [a + v] for a [bytes] object [a] *)
Definition bytes_add (a : list byte) (v : obj) : result (list byte) :=
  match v with
  | Bytes b => Ok (a ++ b)
  | Int _ => Raise (TypeError "can't concat int to bytes")
  end.

(** [bytearray(length)] *)
Definition bytearray (length : Z) : result (list byte) :=
  if length <? 0 then Raise (ValueError "negative count")
  else Ok (repeat Byte.x00 (Z.to_nat length)).

(** [b[0]] *)
Definition item0 (b : list byte) : result Z :=
  match b with
  | x :: _ => Ok (byte.unsigned x)
  | [] => Raise (IndexError "bytearray index out of range")
  end.

(** [range(n)] *)
Definition range (n : nat) : list Z := map Z.of_nat (seq 0 n).

(** [key in d] and [d[key]] for a dict with int keys, kept in the order of
    the literal. *)
Fixpoint dict_get (d : list (Z * Z)) (key : Z) : option Z :=
  match d with
  | [] => None
  | (k, v) :: rest => if k =? key then Some v else dict_get rest key
  end.

Definition dict_mem (d : list (Z * Z)) (key : Z) : bool :=
  match dict_get d key with Some _ => true | None => false end.

Definition dict_item (d : list (Z * Z)) (key : Z) : result Z :=
  match dict_get d key with Some v => Ok v | None => Raise (KeyError key) end.

(** [x in [s0, s1, ...]] for strings *)
Definition str_in (x : string) (l : list string) : bool :=
  existsb (String.eqb x) l.

(** [x in [z0, z1, ...]] for ints *)
Definition int_in (x : Z) (l : list Z) : bool :=
  existsb (Z.eqb x) l.

End Py.

(* ------------------------------------------------------------------------- *)
(** ** The SPI device, the clock, and the monad of driver methods *)

Module Spi.
Import Py.

(** What the bus sees.  [Select] and [Release] are the chip-select edges of
    [with self.spi_device as spi:]. *)
Inductive event : Type :=
| Select
| Write (data : list byte)
| Readinto (data : list byte)
| Release.

Record world : Type := mkWorld {
  wire : list event;     (** events so far, oldest first *)
  miso : nat -> byte;    (** the bytes the chip shifts out, in order *)
  rx_pos : nat;          (** how many of them have been read *)
  clock : Z;             (** time asked for so far, in microseconds *)
  xfer_time : Z          (** duration of one chip-select window *)
}.

Definition M (A : Type) : Type := world -> result A * world.

Definition ret {A} (a : A) : M A := fun w => (Ok a, w).

Definition raise {A} (e : exn) : M A := fun w => (Raise e, w).

Definition bind {A B} (m : M A) (k : A -> M B) : M B :=
  fun w =>
    match m w with
    | (Ok a, w') => k a w'
    | (Raise e, w') => (Raise e, w')
    end.

Definition lift {A} (r : result A) : M A := fun w => (r, w).

Definition emit (e : event) : M unit :=
  fun w => (Ok tt, mkWorld (wire w ++ [e]) (miso w) (rx_pos w)
                           (clock w) (xfer_time w)).

Definition elapse (d : Z) : M unit :=
  fun w => (Ok tt, mkWorld (wire w) (miso w) (rx_pos w)
                           (clock w + d) (xfer_time w)).

(** [time.sleep(d)], [d] in microseconds: the time asked for is counted;
    how long the sleep lasts beyond that is not modelled. *)
Definition sleep (d : Z) : M unit := elapse d.

(** [spi.write(data)] *)
Definition write (data : list byte) : M unit := emit (Write data).

(** [spi.readinto(buffer)]: fills the buffer with the next [len(buffer)]
    bytes of MISO. *)
Definition readinto (buffer : list byte) : M (list byte) :=
  fun w =>
    let n := List.length buffer in
    let data := map (miso w) (seq (rx_pos w) n) in
    (Ok data, mkWorld (wire w ++ [Readinto data]) (miso w)
                      (rx_pos w + n)%nat (clock w) (xfer_time w)).

(** [with self.spi_device as spi: body]: chip select is released on the
    way out whether or not the body raised. *)
Definition with_device {A} (body : M A) : M A :=
  fun w =>
    match emit Select w with
    | (_, w1) =>
        match body w1 with
        | (r, w2) =>
            match bind (emit Release) (fun _ => elapse (xfer_time w2)) w2 with
            | (_, w3) => (r, w3)
            end
        end
    end.

(** The payloads written on MOSI, oldest first. *)
Fixpoint written (evs : list event) : list (list byte) :=
  match evs with
  | [] => []
  | Write d :: rest => d :: written rest
  | _ :: rest => written rest
  end.

End Spi.

Declare Scope py_scope.
Delimit Scope py_scope with py.
Notation "x <- m ;; k" := (Spi.bind m (fun x => k))
  (at level 61, m at next level, right associativity) : py_scope.
Notation "m ;; k" := (Spi.bind m (fun _ => k))
  (at level 61, right associativity) : py_scope.
Local Open Scope py_scope.

(* ------------------------------------------------------------------------- *)
(** ** AD5628/AD5628.py *)

Module AD5628.
Import Py Spi.

Definition MAX_CHANNELS : Z := 8.

Definition CMD_WRITE_INPUT_REGISTER : Z := 0x00.
Definition CMD_UPDATE_DAC : Z := 0x01.
Definition CMD_WRITE_INPUT_UPDATE_ALL : Z := 0x02.
Definition CMD_WRITE_AND_UPDATE_DAC : Z := 0x03.
Definition CMD_POWER_DOWN : Z := 0x04.
Definition CMD_LOAD_CLEAR_CODE : Z := 0x05.
Definition CMD_LOAD_LDAC : Z := 0x06.
Definition CMD_RESET : Z := 0x07.
Definition CMD_SETUP_INT_REF_REG : Z := 0x08.

Definition DAC_ALL_CHANNELS : Z := 0x0F.

Definition send_data (value : Z) : M unit :=
  buffer <- lift (to_bytes value 4) ;;
  with_device (write buffer).

Definition write_register (channel data : Z) : M unit :=
  let command :=
    Z.lor (Z.lor (Z.shiftl CMD_WRITE_INPUT_REGISTER 24) (Z.shiftl channel 20))
          (Z.land data 0xFFFFF) in
  send_data command.

Definition update_dac (channel data : Z) : M unit :=
  if (channel >=? MAX_CHANNELS) && negb (channel =? DAC_ALL_CHANNELS) then
    raise (ValueError "Invalid channel")
  else
    let command :=
      Z.lor (Z.lor (Z.shiftl CMD_UPDATE_DAC 24) (Z.shiftl channel 20))
            (Z.shiftl data 8) in
    send_data command.

Definition write_update_dac (channel data : Z) : M unit :=
  if (channel >=? MAX_CHANNELS) && negb (channel =? DAC_ALL_CHANNELS) then
    raise (ValueError "Invalid channel")
  else
    let command :=
      Z.lor (Z.lor (Z.shiftl CMD_WRITE_AND_UPDATE_DAC 24)
                   (Z.shiftl channel 20))
            (Z.shiftl data 8) in
    send_data command.

Definition tester : M unit :=
  let command :=
    Z.lor (Z.lor (Z.shiftl 0x03 24) (Z.shiftl 0x00 20)) (Z.shiftl 0xFFF 8) in
  send_data command.

Definition power_down : M unit :=
  let command := Z.shiftl CMD_POWER_DOWN 24 in
  send_data command.

Definition load_clear_code (code : Z) : M unit :=
  if negb (int_in code [0x00; 0x80000; 0xFFFFF]) then
    raise (ValueError
             "Invalid clear code, must be 0 (zero), midscale, or fullscale")
  else
    let command :=
      Z.lor (Z.shiftl CMD_LOAD_CLEAR_CODE 24) (Z.land code 0xFFFFF) in
    send_data command.

Definition load_ldac (channel : Z) : M unit :=
  if (channel >=? MAX_CHANNELS) && negb (channel =? DAC_ALL_CHANNELS) then
    raise (ValueError "Invalid channel")
  else
    shifted <- lift (lshift 0x01 channel) ;;
    let ldac_value := Z.land shifted 0xFF in
    let command :=
      Z.lor (Z.shiftl CMD_LOAD_LDAC 24) (Z.shiftl ldac_value 8) in
    send_data command.

Definition update_ldac (channel data : Z) : M unit :=
  let command :=
    Z.lor (Z.lor (Z.shiftl CMD_WRITE_INPUT_UPDATE_ALL 24)
                 (Z.shiftl channel 20))
          (Z.shiftl data 8) in
  send_data command.

Definition reset : M unit :=
  let command := Z.shiftl CMD_RESET 24 in
  send_data command.

Definition internal_ref_mode : M unit :=
  let command := Z.lor (Z.shiftl 0x08 24) (Z.shiftl 0x01 8) in
  send_data command.

(** The two errors the spec names for this driver. *)
Definition InvalidChannel : exn := ValueError "Invalid channel".
Definition InvalidClearCode : exn :=
  ValueError "Invalid clear code, must be 0 (zero), midscale, or fullscale".

End AD5628.

(* ------------------------------------------------------------------------- *)
(** ** AD7193/AD7193.py *)

Module AD7193.
Import Py Spi.

Definition COMMUNICATIONS_REGISTER : Z := 0x00.
Definition STATUS_REGISTER : Z := 0x00.
Definition MODE_REGISTER : Z := 0x01.
Definition CONFIGURATION_REGISTER : Z := 0x02.
Definition DATA_REGISTER : Z := 0x03.

(** The command byte of [write_register] (line 41) and of [read_register]
    (line 48). *)
Definition write_command (register : Z) : Z :=
  Z.land (Z.shiftl register 3) 0xF8.

Definition read_command (register : Z) : Z :=
  Z.land (Z.lor (Z.shiftl register 3) 0x40) 0xFF.

Definition reset : M unit :=
  reset_command <- lift (bytes_of_ints (repeat 0xFF 5)) ;;
  with_device (write reset_command) ;;
  sleep 10000.

Definition write_register (register : Z) (value : obj) : M unit :=
  let command := write_command register in
  head <- lift (bytes_of_ints [command]) ;;
  data <- lift (bytes_add head value) ;;
  with_device (write data).

Definition read_register (register length : Z) : M (list byte) :=
  let command := read_command register in
  buffer <- lift (bytearray length) ;;
  with_device (
    head <- lift (bytes_of_ints [command]) ;;
    write head ;;
    readinto buffer).

Definition read_device_id : M Z :=
  b <- read_register 0x04 1 ;;
  ret (from_bytes b).

Definition initialize : M unit :=
  let mode_value := 0x080060 in
  b <- lift (to_bytes mode_value 3) ;;
  write_register MODE_REGISTER (Bytes b) ;;
  let config_value := 0x000117 in
  b <- lift (to_bytes config_value 3) ;;
  write_register CONFIGURATION_REGISTER (Bytes b).

Definition read_data : M Z :=
  data <- read_register DATA_REGISTER 3 ;;
  ret (from_bytes data).

Definition data_ready : M bool :=
  b <- read_register STATUS_REGISTER 1 ;;
  status <- lift (item0 b) ;;
  ret (not_int (Z.land status 0x80)).

(** One turn of the [while] loop of [wait_for_data_ready]: [false] when the
    loop condition fails and the loop is left, [true] when the body ran to
    its end.  [reading] is what [time.monotonic()] returns if this turn
    calls it; [start], [timeout] and the reading are floats, and
    [(now - start) > timeout] is [timeout < now - start] on binary64. *)
Definition wait_turn (start timeout reading : float) : M bool :=
  ready <- data_ready ;;
  if ready then ret false
  else
    let now := reading in
    if PrimFloat.ltb timeout (PrimFloat.sub now start) then
      raise (TimeoutError "Timeout waiting for data ready")
    else
      sleep 1000 ;;
      ret true.

(** The loop, cut off after [fuel] turns; [None] is a loop still running.
    [monotonic k] is what the call number [k] of [time.monotonic()] returns,
    and [call] numbers the next one. *)
Fixpoint wait_loop (fuel : nat) (start timeout : float)
                   (monotonic : nat -> float) (call : nat) (w : world)
  : option (result unit * world) :=
  match fuel with
  | O => None
  | S fuel' =>
      match wait_turn start timeout (monotonic call) w with
      | (Ok true, w') => wait_loop fuel' start timeout monotonic (S call) w'
      | (Ok false, w') => Some (Ok tt, w')
      | (Raise e, w') => Some (Raise e, w')
      end
  end.

Definition wait_for_data_ready (fuel : nat) (timeout : float)
                               (monotonic : nat -> float) (w : world)
  : option (result unit * world) :=
  let start := monotonic 0%nat in
  wait_loop fuel start timeout monotonic 1 w.

Definition get_active_channel : M Z :=
  b <- read_register STATUS_REGISTER 1 ;;
  status <- lift (item0 b) ;;
  let channel := Z.land status 0x0F in
  ret channel.

(** The body of [get_active_channels] after the register read. *)
Definition active_channels_of (config : Z) : list Z :=
  fold_left
    (fun active_channels channel =>
       if truthy (Z.land config (Z.shiftl 1 channel))
       then active_channels ++ [channel]
       else active_channels)
    (range 8) [].

Definition get_active_channels : M (list Z) :=
  b <- read_register CONFIGURATION_REGISTER 3 ;;
  let config := from_bytes b in
  ret (active_channels_of config).

Definition get_mode : M string :=
  b <- read_register CONFIGURATION_REGISTER 3 ;;
  let config := from_bytes b in
  ret (if truthy (Z.land config (Z.shiftl 1 12))
       then "Pseudo-Differential" else "Differential").

Definition InvalidMode : exn :=
  ValueError "Invalid mode. Choose 'pseudo-differential' or 'differential'.".
Definition InvalidPolarity : exn :=
  ValueError "Invalid polarity. Choose 'unipolar' or 'bipolar'.".
Definition InvalidGain : exn :=
  ValueError "Invalid gain. Choose from 1, 8, 16, 32, 64, 128.".
Definition InvalidChannelPseudo : exn :=
  ValueError "Invalid channel for pseudo-differential. Choose 1-8.".
Definition InvalidChannelDiff : exn :=
  ValueError "Invalid channel for differential. Choose 1-4.".
Definition Timeout : exn := TimeoutError "Timeout waiting for data ready".

(** [{1: 0b000, 8: 0b011, 16: 0b100, 32: 0b101, 64: 0b110, 128: 0b111}] *)
Definition gain_map : list (Z * Z) :=
  [(1, 0x0); (8, 0x3); (16, 0x4); (32, 0x5); (64, 0x6); (128, 0x7)].

(** [for ch in channels: if 1 <= ch <= hi: channel_mask |= 1 << (ch - 1)
    else: raise].  The shift count [ch - 1] is not negative where the
    shift is reached. *)
Fixpoint channel_loop (hi : Z) (err : exn) (channels : list Z)
                      (channel_mask : Z) : result Z :=
  match channels with
  | [] => Ok channel_mask
  | ch :: rest =>
      if (1 <=? ch) && (ch <=? hi) then
        channel_loop hi err rest (Z.lor channel_mask (Z.shiftl 1 (ch - 1)))
      else Raise err
  end.

(** Lines 114-146 of [configure_adc]: the checks and the packed value. *)
Definition config_value (mode polarity : string) (channels : list Z)
                        (gain : Z) : result Z :=
  if negb (str_in mode ["pseudo-differential"; "differential"]) then
    Raise InvalidMode
  else if negb (str_in polarity ["unipolar"; "bipolar"]) then
    Raise InvalidPolarity
  else if negb (dict_mem gain_map gain) then
    Raise InvalidGain
  else
    match
      (if mode =? "pseudo-differential" then
         channel_loop 8 InvalidChannelPseudo channels 0
       else if mode =? "differential" then
         channel_loop 4 InvalidChannelDiff channels 0
       else Ok 0)%string
    with
    | Raise e => Raise e
    | Ok channel_mask =>
        let unipolar_bit := if (polarity =? "bipolar")%string then 0 else 1 in
        match dict_item gain_map gain with
        | Raise e => Raise e
        | Ok code =>
            Ok (Z.lor (Z.lor (Z.shiftl unipolar_bit 12) (Z.shiftl code 8))
                      channel_mask)
        end
    end.

(** Lines 148-149: the value goes to [write_register] as the int it is. *)
Definition configure_adc (mode polarity : string) (channels : list Z)
                         (gain : Z) : M unit :=
  v <- lift (config_value mode polarity channels gain) ;;
  write_register CONFIGURATION_REGISTER (Int v).

End AD7193.

(* ------------------------------------------------------------------------- *)
(** ** AD7193/adc_test.py *)

Module AdcTest.
Import Py Spi.

(** Lines 10-21 of the example script, up to the polling loop: reset,
    initialize, configure, then read the mode and the channels back.  The
    two [print]s are left out. *)
Definition setup : M (string * list Z) :=
  AD7193.reset ;;
  AD7193.initialize ;;
  AD7193.configure_adc "pseudo-differential" "unipolar" [1; 2; 3; 4] 32 ;;
  mode <- AD7193.get_mode ;;
  all_channels <- AD7193.get_active_channels ;;
  ret (mode, all_channels).

End AdcTest.

(* ------------------------------------------------------------------------- *)
(** ** Vocabulary of the specification *)

Import Py Spi.

(** The DAC's channel addresses: A to H, and the broadcast address. *)
Definition dac_channel (c : Z) : Prop := 0 <= c <= 7 \/ c = 15.

(** The fields of a 32-bit DAC command word, by position: bits 31..28,
    27..24, 23..20, 19..8 and 7..0. *)
Definition word_top4 (word : Z) : Z := Z.shiftr word 28.
Definition word_command (word : Z) : Z := Z.land (Z.shiftr word 24) 0xF.
Definition word_address (word : Z) : Z := Z.land (Z.shiftr word 20) 0xF.
Definition word_data12 (word : Z) : Z := Z.land (Z.shiftr word 8) 0xFFF.
Definition word_low8 (word : Z) : Z := Z.land word 0xFF.

(** The command word with [opcode] in bits 27..24, [channel] in bits 23..20
    and [data] from bit 8 up. *)
Definition dac_word (opcode channel data : Z) : Z :=
  opcode * 2 ^ 24 + channel * 2 ^ 20 + data * 2 ^ 8.

(** A world with nothing on the wire yet. *)
Definition idle : world := mkWorld [] (fun _ => Byte.x00) 0 0 0.

(** The world after one DAC command: a single chip-select window with one
    write in it. *)
Definition sent (data : list byte) (w : world) : world :=
  mkWorld (wire w ++ [Select; Write data; Release]) (miso w) (rx_pos w)
          (clock w + xfer_time w) (xfer_time w).

(** The world after one ADC register read of [n] bytes: a window with the
    command byte written and the next [n] bytes of MISO read. *)
Definition received (command : byte) (n : nat) (w : world) : world :=
  mkWorld (wire w ++ [Select; Write [command];
                      Readinto (map (miso w) (seq (rx_pos w) n)); Release])
          (miso w) (rx_pos w + n)%nat (clock w + xfer_time w) (xfer_time w).

(** A command byte laid out as [register(5)][readFlag(1)][reserved(2)]. *)
Definition layout_5_1_2 (register : Z) (read_flag : bool) : Z :=
  Z.lor (Z.shiftl (Z.land register 0x1F) 3) (if read_flag then 0x04 else 0).

(** Arguments that pass the four checks of [configure_adc]. *)
Definition adc_modes : list string := ["pseudo-differential"; "differential"].
Definition adc_polarities : list string := ["unipolar"; "bipolar"].
Definition adc_gains : list Z := [1; 8; 16; 32; 64; 128].

Definition channels_legal (mode : string) (channels : list Z) : Prop :=
  (mode = "pseudo-differential" /\ Forall (fun ch => 1 <= ch <= 8) channels) \/
  (mode = "differential" /\ Forall (fun ch => 1 <= ch <= 4) channels).

Definition valid_args (mode polarity : string) (channels : list Z) (gain : Z)
  : Prop :=
  In polarity adc_polarities /\ In gain adc_gains /\
  channels_legal mode channels.

(** The mask the channel loop accumulates when no channel is refused. *)
Definition mask_of (channels : list Z) (mask : Z) : Z :=
  fold_left (fun m ch => Z.lor m (Z.shiftl 1 (ch - 1))) channels mask.

(** Status byte with RDY (bit 7) set: no conversion result yet. *)
Definition busy (status : byte) : bool := Z.testbit (byte.unsigned status) 7.

(** The world after a status poll, and after a poll followed by the 1 ms
    sleep at the end of the loop body. *)
Definition polled (w : world) : world := received Byte.x40 1 w.

Definition slept (w : world) : world :=
  mkWorld (wire (polled w)) (miso w) (rx_pos w + 1)%nat
          (clock w + xfer_time w + 1000) (xfer_time w).

(** The world after [n] turns of the polling loop that ran to the sleep. *)
Fixpoint after_turns (n : nat) (w : world) : world :=
  match n with
  | O => w
  | S n' => after_turns n' (slept w)
  end.

(** A chip that never has a result: every byte it shifts out has RDY set. *)
Definition never_ready (w : world) : Prop := forall n, busy (miso w n) = true.

(** A chip that only ever answers 0x80, whose transfers take 8 us. *)
Definition stuck : world := mkWorld [] (fun _ => Byte.x80) 0 0 8.

(** The test of line 80 on a reading [now] of the clock. *)
Definition expired (start timeout now : float) : bool :=
  PrimFloat.ltb timeout (PrimFloat.sub now start).

(** Small counts as floats. *)
Fixpoint float_of_nat (n : nat) : float :=
  match n with
  | O => 0%float
  | S n' => PrimFloat.add (float_of_nat n') 1%float
  end.

(** A clock that reads [first] ms when the wait begins and again at the
    first check, and 1 ms more at every check after that: the sleeps last
    exactly 1 ms and nothing else takes time. *)
Definition ms_clock (first : nat) (call : nat) : float :=
  PrimFloat.div (float_of_nat (first + (call - 1))) 1000%float.

(** A clock that reads [call] ms at the call number [call]. *)
Definition counting_clock (call : nat) : float :=
  PrimFloat.div (float_of_nat call) 1000%float.

(** A clock that has stopped. *)
Definition still_clock (call : nat) : float := 5%float.

(** A method that either raises and leaves the world as it was, or ends
    after one chip-select window holding one write of four bytes. *)
Definition one_write (m : M unit) : Prop :=
  forall w,
    (exists e, m w = (Raise e, w)) \/
    (exists bs, List.length bs = 4%nat /\ m w = (Ok tt, sent bs w)).

(** A chip about to shift out the bytes [bs], then zeros. *)
Definition answering (bs : list byte) : world :=
  mkWorld [] (fun n => nth n bs Byte.x00) 0 0 0.

(** The flag [configure_adc] packs for a polarity. *)
Definition unipolar_bit (polarity : string) : Z :=
  if (polarity =? "bipolar")%string then 0 else 1.

(** The codes of [gain_map]. *)
Definition gain_codes : list Z := [0; 3; 4; 5; 6; 7].

(* ------------------------------------------------------------------------- *)
(** ** Integers and bytes *)

(** Runs the body of a chip-select window and lines the wire up with [sent]
    or [received]. *)
Ltac run_window :=
  unfold with_device, write, readinto, emit, bind, elapse, sent, received;
  cbn [fst snd wire miso rx_pos clock xfer_time];
  rewrite <- ?app_assoc; cbn [app].

Section Encoding.

Lemma unsigned_of_Z_small (z : Z) :
  0 <= z < 256 -> byte.unsigned (byte.of_Z z) = z.
Proof.
  intros Hz. rewrite byte.unsigned_of_Z. unfold byte.wrap.
  apply Z.mod_small. change (2 ^ 8) with 256. lia.
Qed.

Lemma from_bytes_snoc (b : list byte) (x : byte) :
  from_bytes (b ++ [x]) = from_bytes b * 256 + byte.unsigned x.
Proof. unfold from_bytes. rewrite fold_left_app. reflexivity. Qed.

Lemma length_be_bytes (n : nat) (v : Z) : List.length (be_bytes n v) = n.
Proof.
  revert v. induction n as [|n IH]; intros v; simpl; [reflexivity|].
  rewrite length_app, IH. simpl. lia.
Qed.

(** Reading back what [to_bytes] wrote gives the value again. *)
Lemma from_bytes_be_bytes (n : nat) (v : Z) :
  from_bytes (be_bytes n v) = v mod 256 ^ Z.of_nat n.
Proof.
  revert v. induction n as [|n IH]; intros v.
  - simpl. now rewrite Z.mod_1_r.
  - cbn [be_bytes]. rewrite from_bytes_snoc, IH, byte.unsigned_of_Z.
    unfold byte.wrap. change (2 ^ 8) with 256.
    rewrite Nat2Z.inj_succ, Z.pow_succ_r by lia.
    rewrite Z.rem_mul_r by lia. lia.
Qed.

Lemma to_bytes_fits (v : Z) (n : nat) :
  0 <= v < 256 ^ Z.of_nat n -> to_bytes v n = Ok (be_bytes n v).
Proof.
  intros [Hlo Hhi]. unfold to_bytes.
  destruct (Z.ltb_spec v 0); [lia|].
  destruct (Z.leb_spec (256 ^ Z.of_nat n) v); [lia|]. reflexivity.
Qed.

Lemma to_bytes_negative (v : Z) (n : nat) :
  v < 0 ->
  to_bytes v n = Raise (OverflowError "can't convert negative int to unsigned").
Proof.
  intros Hv. unfold to_bytes. destruct (Z.ltb_spec v 0); [reflexivity|lia].
Qed.

Lemma to_bytes_roundtrip (v : Z) (n : nat) (b : list byte) :
  to_bytes v n = Ok b -> List.length b = n /\ from_bytes b = v.
Proof.
  unfold to_bytes. destruct (Z.ltb_spec v 0); [discriminate|].
  destruct (Z.leb_spec (256 ^ Z.of_nat n) v); [discriminate|].
  intros [= <-]. split; [apply length_be_bytes|].
  rewrite from_bytes_be_bytes. apply Z.mod_small. lia.
Qed.

(** Two fields that do not overlap are combined by [|] as by [+]. *)
Lemma lor_fields (hi lo k : Z) :
  0 <= k -> 0 <= lo < 2 ^ k -> Z.lor (Z.shiftl hi k) lo = hi * 2 ^ k + lo.
Proof.
  intros Hk Hlo.
  assert (Hdisjoint : Z.land (Z.shiftl hi k) lo = 0).
  { apply Z.bits_inj'. intros n Hn. rewrite Z.land_spec, Z.bits_0.
    destruct (Z.lt_ge_cases n k) as [Hnk|Hnk].
    - rewrite Z.shiftl_spec_low by assumption. reflexivity.
    - rewrite <- (Z.mod_small lo (2 ^ k)) by assumption.
      rewrite Z.mod_pow2_bits_high by lia. apply andb_false_r. }
  pose proof (Z.add_lor_land (Z.shiftl hi k) lo) as Hsum.
  rewrite Hdisjoint, Z.shiftl_mul_pow2 in Hsum by assumption.
  rewrite Z.shiftl_mul_pow2 by assumption. lia.
Qed.

(** [x & (1 << k)] is non-zero exactly when bit [k] of [x] is set. *)
Lemma truthy_land_bit (x k : Z) :
  0 <= k -> truthy (Z.land x (Z.shiftl 1 k)) = Z.testbit x k.
Proof.
  intros Hk. unfold truthy.
  destruct (Z.testbit x k) eqn:Hb.
  - destruct (Z.eqb_spec (Z.land x (Z.shiftl 1 k)) 0) as [E|]; [|reflexivity].
    assert (Hc : Z.testbit (Z.land x (Z.shiftl 1 k)) k = true).
    { rewrite Z.land_spec, Hb, Z.shiftl_spec, Z.sub_diag by assumption.
      reflexivity. }
    rewrite E, Z.bits_0 in Hc. discriminate.
  - replace (Z.land x (Z.shiftl 1 k)) with 0; [reflexivity|].
    symmetry. apply Z.bits_inj'. intros n Hn.
    rewrite Z.land_spec, Z.bits_0, Z.shiftl_spec by assumption.
    destruct (Z.eq_dec n k) as [->|Hne]; [now rewrite Hb|].
    destruct (Z.lt_ge_cases n k).
    + rewrite (Z.testbit_neg_r 1) by lia. apply andb_false_r.
    + replace (n - k) with (Z.succ (n - k - 1)) by lia.
      rewrite (Z.bits_above_log2 1) by (simpl; lia). apply andb_false_r.
Qed.

End Encoding.

(* ------------------------------------------------------------------------- *)
(** ** AD5628: command words *)

Section Dac.

(** A command whose word converts to the bytes [bs] is one window with
    one write of [bs]. *)
Lemma send_data_bytes (v : Z) (bs : list byte) (w : world) :
  to_bytes v 4 = Ok bs -> AD5628.send_data v w = (Ok tt, sent bs w).
Proof.
  intros E. unfold AD5628.send_data, bind, lift. rewrite E. now run_window.
Qed.

Lemma send_data_fits (v : Z) (w : world) :
  0 <= v < 2 ^ 32 -> AD5628.send_data v w = (Ok tt, sent (be_bytes 4 v) w).
Proof.
  intros Hv. apply send_data_bytes, to_bytes_fits.
  change (256 ^ Z.of_nat 4) with (2 ^ 32). lia.
Qed.

Lemma send_data_negative (v : Z) (w : world) :
  v < 0 ->
  AD5628.send_data v w =
  (Raise (OverflowError "can't convert negative int to unsigned"), w).
Proof.
  intros Hv. unfold AD5628.send_data, bind, lift.
  now rewrite to_bytes_negative.
Qed.

Lemma send_data_too_big (v : Z) (w : world) :
  2 ^ 32 <= v ->
  AD5628.send_data v w = (Raise (OverflowError "int too big to convert"), w).
Proof.
  intros Hv. unfold AD5628.send_data, bind, lift, to_bytes.
  destruct (Z.ltb_spec v 0); [lia|].
  change (256 ^ Z.of_nat 4) with (2 ^ 32).
  destruct (Z.leb_spec (2 ^ 32) v); [reflexivity|lia].
Qed.

(** [send_data] fails, if at all, in [to_bytes]. *)
Lemma send_data_outcome (v : Z) (w : world) :
  fst (AD5628.send_data v w) = Ok tt \/
  exists msg, fst (AD5628.send_data v w) = Raise (OverflowError msg).
Proof.
  destruct (Z.lt_ge_cases v 0) as [Hneg|Hpos].
  - right. eexists. now rewrite send_data_negative.
  - destruct (Z.lt_ge_cases v (2 ^ 32)) as [Hfit|Hbig].
    + left. now rewrite send_data_fits.
    + right. eexists. now rewrite send_data_too_big.
Qed.

Lemma channel_check_passes (c : Z) :
  c < 8 \/ c = 15 ->
  (c >=? AD5628.MAX_CHANNELS) && negb (c =? AD5628.DAC_ALL_CHANNELS) = false.
Proof.
  unfold AD5628.MAX_CHANNELS, AD5628.DAC_ALL_CHANNELS. intros [Hc| ->].
  - destruct (Z.geb_spec c 8); [lia|reflexivity].
  - reflexivity.
Qed.

Lemma channel_check_fails (c : Z) :
  8 <= c -> c <> 15 ->
  (c >=? AD5628.MAX_CHANNELS) && negb (c =? AD5628.DAC_ALL_CHANNELS) = true.
Proof.
  unfold AD5628.MAX_CHANNELS, AD5628.DAC_ALL_CHANNELS. intros H8 H15.
  destruct (Z.geb_spec c 8); [|lia].
  destruct (Z.eqb_spec c 15); [lia|reflexivity].
Qed.

(** The three fields of a command word, packed by [|], do not overlap when
    each is within its width. *)
Lemma command_word (opcode c data : Z) :
  0 <= c < 16 -> 0 <= data < 2 ^ 12 ->
  Z.lor (Z.lor (Z.shiftl opcode 24) (Z.shiftl c 20)) (Z.shiftl data 8) =
  dac_word opcode c data.
Proof.
  intros Hc Hd. unfold dac_word.
  change (2 ^ 12) with 4096 in Hd.
  rewrite (Z.shiftl_mul_pow2 c), (Z.shiftl_mul_pow2 data) by lia.
  change (2 ^ 20) with 1048576. change (2 ^ 8) with 256.
  rewrite lor_fields by (change (2 ^ 24) with 16777216; lia).
  change (2 ^ 24) with (16 * 1048576).
  replace (opcode * (16 * 1048576) + c * 1048576)
    with (Z.shiftl (opcode * 16 + c) 20)
    by (rewrite Z.shiftl_mul_pow2 by lia; change (2 ^ 20) with 1048576; lia).
  rewrite lor_fields by (change (2 ^ 20) with 1048576; lia).
  now rewrite Z.shiftl_mul_pow2 by lia.
Qed.

Lemma dac_word_fields (opcode c data : Z) :
  0 <= opcode < 16 -> 0 <= c < 16 -> 0 <= data < 2 ^ 12 ->
  let word := dac_word opcode c data in
  0 <= word < 2 ^ 28 /\
  word_top4 word = 0 /\ word_command word = opcode /\
  word_address word = c /\ word_data12 word = data /\ word_low8 word = 0.
Proof.
  intros Ho Hc Hd word.
  unfold word_top4, word_command, word_address, word_data12, word_low8.
  change 0xF with (Z.ones 4). change 0xFFF with (Z.ones 12).
  change 0xFF with (Z.ones 8).
  rewrite !Z.land_ones, !Z.shiftr_div_pow2 by lia.
  subst word. unfold dac_word.
  change (2 ^ 28) with 268435456. change (2 ^ 24) with 16777216.
  change (2 ^ 20) with 1048576. change (2 ^ 12) with 4096 in *.
  change (2 ^ 8) with 256. change (2 ^ 4) with 16.
  repeat split; try lia; Z.div_mod_to_equations; lia.
Qed.

(** Channels the check is written for: 8 and above, other than 15, are
    refused by all three methods and nothing is sent. *)
Lemma channel_above_range_refused (c data : Z) (w : world) :
  8 <= c -> c <> 15 ->
  AD5628.update_dac c data w = (Raise AD5628.InvalidChannel, w) /\
  AD5628.write_update_dac c data w = (Raise AD5628.InvalidChannel, w) /\
  AD5628.load_ldac c w = (Raise AD5628.InvalidChannel, w).
Proof.
  intros H8 H15.
  unfold AD5628.update_dac, AD5628.write_update_dac, AD5628.load_ldac.
  rewrite channel_check_fails by assumption. repeat split.
Qed.

(** For a channel address of the DAC none of the three methods raises
    [InvalidChannel]. *)
Lemma channel_in_range_accepted (c data : Z) (w : world) :
  dac_channel c ->
  fst (AD5628.update_dac c data w) <> Raise AD5628.InvalidChannel /\
  fst (AD5628.write_update_dac c data w) <> Raise AD5628.InvalidChannel /\
  fst (AD5628.load_ldac c w) <> Raise AD5628.InvalidChannel.
Proof.
  intros Hc.
  assert (Hc' : c < 8 \/ c = 15) by (destruct Hc; [left; lia | now right]).
  assert (Hsend : forall v, fst (AD5628.send_data v w)
                            <> Raise AD5628.InvalidChannel).
  { intros v. destruct (send_data_outcome v w) as [E|[msg E]];
      rewrite E; discriminate. }
  unfold AD5628.update_dac, AD5628.write_update_dac, AD5628.load_ldac.
  rewrite channel_check_passes by assumption.
  repeat split; try apply Hsend.
  unfold bind, lift, lshift.
  destruct (Z.ltb_spec c 0); [destruct Hc; lia|]. apply Hsend.
Qed.

(** C3 (the code at a negative channel).  A negative channel is below
    [MAX_CHANNELS], so the check [channel >= MAX_CHANNELS and channel !=
    DAC_ALL_CHANNELS] lets it through: [update_dac] and [write_update_dac]
    then fail in [to_bytes] with OverflowError, because the command word
    is negative, and [load_ldac] fails in [0x01 << channel] with the
    ValueError of a negative shift count.  None of them raises
    [InvalidChannel]; nothing is sent. *)
Theorem negative_channel_passes_check (c data : Z) (w : world) :
  c < 0 ->
  AD5628.update_dac c data w =
    (Raise (OverflowError "can't convert negative int to unsigned"), w) /\
  AD5628.write_update_dac c data w =
    (Raise (OverflowError "can't convert negative int to unsigned"), w) /\
  AD5628.load_ldac c w = (Raise (ValueError "negative shift count"), w).
Proof.
  intros Hc.
  unfold AD5628.update_dac, AD5628.write_update_dac, AD5628.load_ldac.
  rewrite channel_check_passes by (left; lia).
  repeat split.
  - apply send_data_negative. apply Z.lor_neg. left. apply Z.lor_neg.
    right. now apply Z.shiftl_neg.
  - apply send_data_negative. apply Z.lor_neg. left. apply Z.lor_neg.
    right. now apply Z.shiftl_neg.
  - unfold bind, lift, lshift. destruct (Z.ltb_spec c 0); [reflexivity|lia].
Qed.

Lemma negative_channel_passes_check_at_minus_one :
  -1 < 0 /\
  AD5628.update_dac (-1) 0 idle =
    (Raise (OverflowError "can't convert negative int to unsigned"), idle) /\
  AD5628.write_update_dac (-1) 0 idle =
    (Raise (OverflowError "can't convert negative int to unsigned"), idle) /\
  AD5628.load_ldac (-1) idle =
    (Raise (ValueError "negative shift count"), idle).
Proof.
  split; [lia | apply (negative_channel_passes_check (-1) 0 idle); lia].
Defined.

(** C5 (as stated, at channel 0 and data 0).  [update_dac(0, 0)] sends
    01 00 00 00: the top four bits of the word are 0, not the opcode 0x1,
    which sits in the four bits below them.  And not every data value is
    sent: at data = 2^24 the word no longer fits 4 bytes and [to_bytes]
    raises before anything is written. *)
Lemma update_dac_opcode_below_top4 :
  AD5628.update_dac 0 0 idle =
    (Ok tt, sent [Byte.x01; Byte.x00; Byte.x00; Byte.x00] idle) /\
  word_top4 (from_bytes [Byte.x01; Byte.x00; Byte.x00; Byte.x00]) = 0 /\
  word_top4 (from_bytes [Byte.x01; Byte.x00; Byte.x00; Byte.x00])
    <> AD5628.CMD_UPDATE_DAC /\
  word_command (from_bytes [Byte.x01; Byte.x00; Byte.x00; Byte.x00])
    = AD5628.CMD_UPDATE_DAC /\
  AD5628.update_dac 0 (2 ^ 24) idle =
    (Raise (OverflowError "int too big to convert"), idle).
Proof. repeat split; try reflexivity. discriminate. Qed.

(** C5 (amended).  For every channel c in {0..7, 15} and every data value
    of at most 12 bits, [update_dac] and [write_update_dac] send exactly
    4 bytes, the big-endian encoding of a 32-bit word whose top 4 bits are
    zero, whose bits 27..24 are the opcode (0x1, 0x3), whose bits 23..20
    are c, whose bits 19..8 are the data and whose low 8 bits are zero. *)
Theorem update_dac_command_word (c data : Z) (w : world) :
  dac_channel c -> 0 <= data < 2 ^ 12 ->
  let word1 := dac_word AD5628.CMD_UPDATE_DAC c data in
  let word3 := dac_word AD5628.CMD_WRITE_AND_UPDATE_DAC c data in
  (AD5628.update_dac c data w = (Ok tt, sent (be_bytes 4 word1) w) /\
   List.length (be_bytes 4 word1) = 4%nat /\
   from_bytes (be_bytes 4 word1) = word1 /\
   word_top4 word1 = 0 /\ word_command word1 = AD5628.CMD_UPDATE_DAC /\
   word_address word1 = c /\ word_data12 word1 = data /\
   word_low8 word1 = 0) /\
  (AD5628.write_update_dac c data w = (Ok tt, sent (be_bytes 4 word3) w) /\
   List.length (be_bytes 4 word3) = 4%nat /\
   from_bytes (be_bytes 4 word3) = word3 /\
   word_top4 word3 = 0 /\
   word_command word3 = AD5628.CMD_WRITE_AND_UPDATE_DAC /\
   word_address word3 = c /\ word_data12 word3 = data /\
   word_low8 word3 = 0).
Proof.
  intros Hc Hd word1 word3.
  assert (Hc16 : 0 <= c < 16) by (destruct Hc; lia).
  assert (Hc' : c < 8 \/ c = 15) by (destruct Hc; [left; lia | now right]).
  assert (Hall : forall opcode, 0 <= opcode < 16 ->
    let word := dac_word opcode c data in
    AD5628.send_data
      (Z.lor (Z.lor (Z.shiftl opcode 24) (Z.shiftl c 20)) (Z.shiftl data 8))
      w = (Ok tt, sent (be_bytes 4 word) w) /\
    List.length (be_bytes 4 word) = 4%nat /\
    from_bytes (be_bytes 4 word) = word /\
    word_top4 word = 0 /\ word_command word = opcode /\
    word_address word = c /\ word_data12 word = data /\
    word_low8 word = 0).
  { intros opcode Ho word.
    destruct (dac_word_fields opcode c data Ho Hc16 Hd)
      as (Hw & Ht & Hcmd & Ha & Hd12 & Hl).
    fold word in Hw, Ht, Hcmd, Ha, Hd12, Hl.
    rewrite command_word by assumption. fold word.
    assert (Hw32 : 0 <= word < 2 ^ 32).
    { split; [lia|]. apply Z.lt_trans with (2 ^ 28); [lia|reflexivity]. }
    repeat apply conj; try assumption.
    - now apply send_data_fits.
    - apply length_be_bytes.
    - rewrite from_bytes_be_bytes. apply Z.mod_small.
      now change (256 ^ Z.of_nat 4) with (2 ^ 32). }
  unfold AD5628.update_dac, AD5628.write_update_dac.
  rewrite channel_check_passes by assumption.
  split.
  - apply (Hall AD5628.CMD_UPDATE_DAC). unfold AD5628.CMD_UPDATE_DAC. lia.
  - apply (Hall AD5628.CMD_WRITE_AND_UPDATE_DAC).
    unfold AD5628.CMD_WRITE_AND_UPDATE_DAC. lia.
Qed.

Lemma update_dac_command_word_broadcast :
  dac_channel 15 /\ 0 <= 0xABC < 2 ^ 12 /\
  AD5628.update_dac 15 0xABC idle =
    (Ok tt, sent (be_bytes 4 (dac_word AD5628.CMD_UPDATE_DAC 15 0xABC))
                 idle) /\
  AD5628.write_update_dac 15 0xABC idle =
    (Ok tt, sent (be_bytes 4 (dac_word AD5628.CMD_WRITE_AND_UPDATE_DAC 15
                                       0xABC))
                 idle).
Proof.
  assert (Hc : dac_channel 15) by (now right).
  assert (Hd : 0 <= 0xABC < 2 ^ 12) by (split; [lia | reflexivity]).
  split; [exact Hc | split; [exact Hd |]].
  split.
  - exact (proj1 (proj1 (update_dac_command_word 15 0xABC idle Hc Hd))).
  - exact (proj1 (proj2 (update_dac_command_word 15 0xABC idle Hc Hd))).
Defined.

(** C6.  [load_clear_code] raises [InvalidClearCode] exactly when the code
    is none of 0, 0x80000 and 0xFFFFF, and then sends nothing; at 0x80000
    it succeeds and sends 05 08 00 00, the big-endian encoding of
    0x05080000. *)
Theorem load_clear_code_checked :
  (forall code w,
     fst (AD5628.load_clear_code code w) = Raise AD5628.InvalidClearCode
     <-> ~ In code [0x0; 0x80000; 0xFFFFF]) /\
  (forall code w,
     ~ In code [0x0; 0x80000; 0xFFFFF] ->
     AD5628.load_clear_code code w = (Raise AD5628.InvalidClearCode, w)) /\
  (forall w,
     AD5628.load_clear_code 0x80000 w =
       (Ok tt, sent [Byte.x05; Byte.x08; Byte.x00; Byte.x00] w)) /\
  to_bytes 0x05080000 4 = Ok [Byte.x05; Byte.x08; Byte.x00; Byte.x00].
Proof.
  assert (Hin : forall code,
            int_in code [0x0; 0x80000; 0xFFFFF] = true
            <-> In code [0x0; 0x80000; 0xFFFFF]).
  { intros code. unfold int_in. rewrite existsb_exists. split.
    - intros (x & Hx & E). apply Z.eqb_eq in E. now subst.
    - intros H. exists code. split; [assumption | apply Z.eqb_refl]. }
  repeat apply conj.
  - intros code w. unfold AD5628.load_clear_code.
    destruct (int_in code [0x0; 0x80000; 0xFFFFF]) eqn:E; cbn [negb].
    + split.
      * intros H. destruct (send_data_outcome
          (Z.lor (Z.shiftl AD5628.CMD_LOAD_CLEAR_CODE 24)
                 (Z.land code 0xFFFFF)) w) as [E'|[msg E']];
          rewrite E' in H; discriminate.
      * intros H. exfalso. apply H. now apply Hin.
    + split; [|reflexivity].
      intros _ H. apply Hin in H. congruence.
  - intros code w H. unfold AD5628.load_clear_code.
    destruct (int_in code [0x0; 0x80000; 0xFFFFF]) eqn:E; [|reflexivity].
    exfalso. apply H. now apply Hin.
  - intros w. unfold AD5628.load_clear_code. cbn [int_in existsb negb].
    change (0x80000 =? 0x0) with false. change (0x80000 =? 0x80000) with true.
    cbn [orb negb].
    change (Z.lor (Z.shiftl AD5628.CMD_LOAD_CLEAR_CODE 24)
                  (Z.land 0x80000 0xFFFFF)) with 0x05080000.
    rewrite send_data_fits by (split; [lia | reflexivity]). reflexivity.
  - reflexivity.
Qed.

Lemma load_clear_code_checked_at_0x12345 :
  AD5628.load_clear_code 0x12345 idle = (Raise AD5628.InvalidClearCode, idle).
Proof.
  apply (proj1 (proj2 load_clear_code_checked)). cbn.
  intros [H|[H|[H|[]]]]; discriminate H.
Defined.

(** C10.  [load_ldac(15)] sends 06 00 00 00, an empty LDAC mask, because
    (1 << 15) & 0xFF = 0; [load_ldac(c)] for c in 0..7 sends the word
    0x06000000 | ((1 << c) << 8), whose mask byte has exactly bit c set. *)
Theorem load_ldac_mask (w : world) :
  Z.land (Z.shiftl 1 15) 0xFF = 0 /\
  AD5628.load_ldac 15 w =
    (Ok tt, sent [Byte.x06; Byte.x00; Byte.x00; Byte.x00] w) /\
  (forall c, 0 <= c <= 7 ->
     let word := Z.lor 0x06000000 (Z.shiftl (Z.shiftl 1 c) 8) in
     AD5628.load_ldac c w = (Ok tt, sent (be_bytes 4 word) w) /\
     to_bytes word 4 = Ok (be_bytes 4 word) /\
     be_bytes 4 word =
       [Byte.x06; Byte.x00; byte.of_Z (Z.shiftl 1 c); Byte.x00] /\
     (forall k, 0 <= k ->
        Z.testbit (byte.unsigned (byte.of_Z (Z.shiftl 1 c))) k = (k =? c))).
Proof.
  repeat apply conj.
  - reflexivity.
  - unfold AD5628.load_ldac. cbn [andb negb]. now apply send_data_bytes.
  - intros c Hc word.
    assert (Hcases : c = 0 \/ c = 1 \/ c = 2 \/ c = 3 \/
                     c = 4 \/ c = 5 \/ c = 6 \/ c = 7) by lia.
    assert (Hbits : forall k, 0 <= k ->
              Z.testbit (byte.unsigned (byte.of_Z (Z.shiftl 1 c))) k
              = (k =? c)).
    { intros k Hk. rewrite unsigned_of_Z_small.
      - rewrite Z.shiftl_spec by assumption.
        destruct (Z.eqb_spec k c) as [->|Hne].
        + now rewrite Z.sub_diag.
        + destruct (Z.lt_ge_cases k c).
          * now rewrite Z.testbit_neg_r by lia.
          * replace (k - c) with (Z.succ (k - c - 1)) by lia.
            now rewrite (Z.bits_above_log2 1) by (simpl; lia).
      - destruct Hcases as [->|[->|[->|[->|[->|[->|[->| ->]]]]]]];
          cbn; lia. }
    subst word.
    destruct Hcases as [->|[->|[->|[->|[->|[->|[->| ->]]]]]]];
      (repeat apply conj;
       [ unfold AD5628.load_ldac; cbn [andb negb]; now apply send_data_bytes
       | reflexivity | reflexivity | exact Hbits ]).
Qed.

Lemma load_ldac_mask_channel_3 :
  0 <= 3 <= 7 /\
  AD5628.load_ldac 3 idle =
    (Ok tt, sent [Byte.x06; Byte.x00; Byte.x08; Byte.x00] idle).
Proof.
  split; [lia|].
  apply (proj2 (proj2 (load_ldac_mask idle)) 3). lia.
Defined.

End Dac.

(* ------------------------------------------------------------------------- *)
(** ** AD7193: command bytes and register transfers *)

Section AdcRegisters.

Lemma shifted_low_bits_clear (register : Z) :
  Z.land (Z.shiftl register 3) 0x07 = 0.
Proof.
  change 0x07 with (Z.ones 3). rewrite Z.land_ones by lia.
  rewrite Z.shiftl_mul_pow2 by lia. apply Z.mod_mul. discriminate.
Qed.

Lemma write_command_selector (register : Z) :
  AD7193.write_command register = Z.shiftl (Z.land register 0x1F) 3.
Proof.
  unfold AD7193.write_command.
  change 0xF8 with (Z.shiftl 0x1F 3). now rewrite Z.shiftl_land.
Qed.

Lemma read_command_flag (register : Z) :
  AD7193.read_command register =
  Z.lor (AD7193.write_command register) 0x40.
Proof.
  unfold AD7193.read_command, AD7193.write_command.
  rewrite Z.land_lor_distr_l. change (Z.land 0x40 0xFF) with 0x40.
  f_equal. change 0xFF with (Z.lor 0xF8 0x07).
  rewrite Z.land_lor_distr_r, shifted_low_bits_clear. apply Z.lor_0_r.
Qed.

Lemma write_command_range (register : Z) :
  0 <= AD7193.write_command register < 256.
Proof.
  rewrite write_command_selector. change 0x1F with (Z.ones 5).
  rewrite Z.land_ones, Z.shiftl_mul_pow2 by lia.
  change (2 ^ 5) with 32. change (2 ^ 3) with 8.
  pose proof (Z.mod_pos_bound register 32). lia.
Qed.

Lemma read_command_range (register : Z) :
  0 <= AD7193.read_command register < 256.
Proof.
  unfold AD7193.read_command. change 0xFF with (Z.ones 8).
  rewrite Z.land_ones by lia. change (2 ^ 8) with 256.
  apply Z.mod_pos_bound. lia.
Qed.

Lemma bytes_of_one (x : Z) :
  0 <= x < 256 -> bytes_of_ints [x] = Ok [byte.of_Z x].
Proof.
  intros Hx. cbn [bytes_of_ints].
  destruct (Z.leb_spec 0 x); [|lia]. destruct (Z.ltb_spec x 256); [|lia].
  reflexivity.
Qed.

(** A write of a [bytes] payload: one window, the command byte and then
    the payload. *)
Lemma write_register_bytes (register : Z) (payload : list byte) (w : world) :
  AD7193.write_register register (Bytes payload) w =
  (Ok tt, sent (byte.of_Z (AD7193.write_command register) :: payload) w).
Proof.
  unfold AD7193.write_register, bind, lift.
  rewrite bytes_of_one by apply write_command_range. cbn [bytes_add app].
  now run_window.
Qed.

(** A write of an [int]: the concatenation raises before the device is
    selected. *)
Lemma write_register_int (register v : Z) (w : world) :
  AD7193.write_register register (Int v) w =
  (Raise (TypeError "can't concat int to bytes"), w).
Proof.
  unfold AD7193.write_register, bind, lift.
  now rewrite bytes_of_one by apply write_command_range.
Qed.

Lemma read_register_bytes (register : Z) (n : nat) (w : world) :
  AD7193.read_register register (Z.of_nat n) w =
  (Ok (map (miso w) (seq (rx_pos w) n)),
   received (byte.of_Z (AD7193.read_command register)) n w).
Proof.
  unfold AD7193.read_register, bind, lift, bytearray.
  destruct (Z.ltb_spec (Z.of_nat n) 0); [lia|]. rewrite Nat2Z.id.
  unfold with_device, emit, bind, lift.
  rewrite bytes_of_one by apply read_command_range.
  run_window. now rewrite repeat_length, <- ?app_assoc.
Qed.

(** C4 (as stated, at register 0).  [read_register(0, _)] sends the command
    byte 0x40.  Laid out as [register(5)][readFlag(1)][reserved(2)] with
    the flag set it would be 0x04: bit 2, where the layout puts the flag,
    is clear, and the bit that is set, bit 6, belongs to the layout's
    register field, so that the byte equals the write command of
    register 8. *)
Lemma read_flag_is_not_bit_2 :
  AD7193.read_command 0 = 0x40 /\
  layout_5_1_2 0 true = 0x04 /\
  AD7193.read_command 0 <> layout_5_1_2 0 true /\
  Z.testbit (AD7193.read_command 0) 2 = false /\
  AD7193.read_command 0 = layout_5_1_2 8 false /\
  fst (AD7193.read_register 0 1 idle) = Ok [Byte.x00] /\
  written (wire (snd (AD7193.read_register 0 1 idle))) = [[Byte.x40]].
Proof. repeat apply conj; try reflexivity. discriminate. Qed.

(** C4 (amended).  For every register address, the command byte of
    [write_register] is [register(5)][000]: the selector in the top 5
    bits and three clear low bits.  The command byte of [read_register]
    is that byte with bit 6 (0x40) set: the read flag lies inside the
    selector field, on selector bit 3.  It is set in every read command,
    and in a write command it is clear exactly when selector bit 3 is. *)
Theorem adc_command_byte (register : Z) :
  AD7193.write_command register = layout_5_1_2 register false /\
  AD7193.read_command register =
    Z.lor (AD7193.write_command register) 0x40 /\
  Z.land (AD7193.write_command register) 0x07 = 0 /\
  Z.land (AD7193.read_command register) 0x07 = 0 /\
  Z.testbit (AD7193.read_command register) 6 = true /\
  Z.testbit (AD7193.write_command register) 6 = Z.testbit register 3 /\
  (forall payload w,
     AD7193.write_register register (Bytes payload) w =
     (Ok tt, sent (byte.of_Z (AD7193.write_command register) :: payload) w))
  /\
  (forall n w,
     AD7193.read_register register (Z.of_nat n) w =
     (Ok (map (miso w) (seq (rx_pos w) n)),
      received (byte.of_Z (AD7193.read_command register)) n w)).
Proof.
  assert (Hlow : Z.land (AD7193.write_command register) 0x07 = 0).
  { unfold AD7193.write_command. rewrite <- Z.land_assoc.
    change (Z.land 0xF8 0x07) with 0. apply Z.land_0_r. }
  repeat apply conj.
  - rewrite write_command_selector. unfold layout_5_1_2. now rewrite Z.lor_0_r.
  - apply read_command_flag.
  - exact Hlow.
  - rewrite read_command_flag, Z.land_lor_distr_l, Hlow. reflexivity.
  - rewrite read_command_flag, Z.lor_spec. apply orb_true_r.
  - unfold AD7193.write_command.
    rewrite Z.land_spec, Z.shiftl_spec by lia. apply andb_true_r.
  - apply write_register_bytes.
  - apply read_register_bytes.
Qed.

End AdcRegisters.

(* ------------------------------------------------------------------------- *)
(** ** AD7193: the configuration value *)

Section AdcConfiguration.

Lemma str_in_iff (x : string) (l : list string) :
  str_in x l = true <-> In x l.
Proof.
  unfold str_in. rewrite existsb_exists. split.
  - intros (y & Hy & E). apply String.eqb_eq in E. now subst.
  - intros H. exists x. split; [assumption | apply String.eqb_refl].
Qed.

Lemma gain_map_keys (gain : Z) :
  dict_mem AD7193.gain_map gain = true <-> In gain adc_gains.
Proof.
  unfold dict_mem, AD7193.gain_map, adc_gains. cbn [dict_get In].
  repeat match goal with
         | |- context [?k =? gain] =>
             destruct (Z.eqb_spec k gain); [split; [tauto | reflexivity] |]
         end.
  split; [discriminate | tauto].
Qed.

Lemma gain_map_item (gain : Z) :
  In gain adc_gains ->
  exists code, dict_item AD7193.gain_map gain = Ok code /\ 0 <= code < 8.
Proof.
  unfold adc_gains. cbn [In].
  intros [<-|[<-|[<-|[<-|[<-|[<-|[]]]]]]]; eexists;
    (split; [reflexivity | lia]).
Qed.

(** The loop either runs through, when every channel is within 1..hi, or
    raises at the first one that is not. *)
Lemma channel_loop_cases (hi : Z) (err : exn) (channels : list Z) :
  forall mask,
    (Forall (fun ch => 1 <= ch <= hi) channels /\
     AD7193.channel_loop hi err channels mask = Ok (mask_of channels mask))
    \/
    (Exists (fun ch => ~ 1 <= ch <= hi) channels /\
     AD7193.channel_loop hi err channels mask = Raise err).
Proof.
  induction channels as [|ch rest IH]; intros mask; cbn.
  - left. split; [constructor | reflexivity].
  - destruct (Z.leb_spec 1 ch); cbn [andb].
    + destruct (Z.leb_spec ch hi).
      * destruct (IH (Z.lor mask (Z.shiftl 1 (ch - 1)))) as [[HF E]|[HE E]].
        -- left. split; [constructor; [lia | assumption] | exact E].
        -- right. split; [now apply Exists_cons_tl | exact E].
      * right. split; [apply Exists_cons_hd; lia | reflexivity].
    + right. split; [apply Exists_cons_hd; lia | reflexivity].
Qed.

Lemma Forall_Exists_absurd {A} (P : A -> Prop) (l : list A) :
  Forall P l -> Exists (fun x => ~ P x) l -> False.
Proof.
  intros HF HE. apply Exists_exists in HE. destruct HE as (x & Hx & Hn).
  rewrite Forall_forall in HF. auto.
Qed.

(** Bit [k] of the accumulated mask is set for channel [k + 1]. *)
Lemma mask_of_bits (channels : list Z) :
  forall mask k,
    0 <= k -> Forall (fun ch => 1 <= ch) channels ->
    Z.testbit (mask_of channels mask) k = true <->
    Z.testbit mask k = true \/ In (k + 1) channels.
Proof.
  induction channels as [|ch rest IH]; intros mask k Hk HF; cbn.
  - tauto.
  - inversion HF as [|? ? Hch HF']; subst.
    unfold mask_of in IH. rewrite IH by assumption.
    rewrite Z.lor_spec, orb_true_iff, Z.shiftl_spec by assumption.
    assert (Hbit : Z.testbit 1 (k - (ch - 1)) = true <-> ch = k + 1).
    { split.
      - intros Hb. destruct (Z.eq_dec ch (k + 1)); [assumption|].
        destruct (Z.lt_ge_cases (k - (ch - 1)) 0).
        + rewrite Z.testbit_neg_r in Hb by assumption. discriminate.
        + replace (k - (ch - 1)) with (Z.succ (k - ch)) in Hb by lia.
          rewrite (Z.bits_above_log2 1) in Hb by (simpl; lia). discriminate.
      - intros ->. now replace (k - (k + 1 - 1)) with 0 by lia. }
    rewrite Hbit. tauto.
Qed.

(** What [config_value] returns for arguments that pass the checks. *)
Lemma config_value_valid (mode polarity : string) (channels : list Z)
                         (gain : Z) :
  valid_args mode polarity channels gain ->
  exists code,
    dict_item AD7193.gain_map gain = Ok code /\ 0 <= code < 8 /\
    AD7193.config_value mode polarity channels gain =
    Ok (Z.lor (Z.lor (Z.shiftl (if (polarity =? "bipolar")%string
                                then 0 else 1) 12)
                     (Z.shiftl code 8))
              (mask_of channels 0)).
Proof.
  intros (Hpol & Hgain & Hch).
  destruct (gain_map_item gain Hgain) as (code & Hcode & Hrange).
  exists code. split; [assumption | split; [assumption|]].
  unfold AD7193.config_value.
  apply str_in_iff in Hpol. apply gain_map_keys in Hgain.
  fold adc_polarities. rewrite Hpol, Hgain, Hcode. cbn [negb].
  destruct Hch as [[-> HF]|[-> HF]].
  - cbn [str_in existsb]. rewrite String.eqb_refl. cbn [orb negb].
    destruct (channel_loop_cases 8 AD7193.InvalidChannelPseudo channels 0)
      as [[_ E]|[HE _]]; [now rewrite E|].
    exfalso. exact (Forall_Exists_absurd _ _ HF HE).
  - change (str_in "differential" ["pseudo-differential"; "differential"])
      with true.
    change ("differential" =? "pseudo-differential")%string with false.
    rewrite String.eqb_refl. cbn [negb].
    destruct (channel_loop_cases 4 AD7193.InvalidChannelDiff channels 0)
      as [[_ E]|[HE _]]; [now rewrite E|].
    exfalso. exact (Forall_Exists_absurd _ _ HF HE).
Qed.

(** Arguments for which [config_value] returns passed the checks. *)
Lemma config_value_ok_valid (mode polarity : string) (channels : list Z)
                            (gain v : Z) :
  AD7193.config_value mode polarity channels gain = Ok v ->
  valid_args mode polarity channels gain.
Proof.
  unfold AD7193.config_value.
  destruct (str_in mode ["pseudo-differential"; "differential"]) eqn:Hmode;
    [|discriminate].
  destruct (str_in polarity ["unipolar"; "bipolar"]) eqn:Hpol;
    [|discriminate].
  destruct (dict_mem AD7193.gain_map gain) eqn:Hgain; [|discriminate].
  cbn [negb]. intros H.
  split; [now apply str_in_iff | split; [now apply gain_map_keys|]].
  apply str_in_iff in Hmode. cbn [In] in Hmode.
  destruct Hmode as [<-|[<-|[]]].
  - rewrite String.eqb_refl in H. left. split; [reflexivity|].
    destruct (channel_loop_cases 8 AD7193.InvalidChannelPseudo channels 0)
      as [[HF _]|[_ E]]; [assumption|].
    rewrite E in H. discriminate.
  - change ("differential" =? "pseudo-differential")%string with false in H.
    rewrite String.eqb_refl in H. right. split; [reflexivity|].
    destruct (channel_loop_cases 4 AD7193.InvalidChannelDiff channels 0)
      as [[HF _]|[_ E]]; [assumption|].
    rewrite E in H. discriminate.
Qed.

(** C1.  Whatever arguments pass the four checks, [configure_adc] raises
    TypeError: the packed value reaches [write_register] as an int, and
    [bytes([command]) + value] needs bytes.  The device is never
    selected and the world is as it was: nothing reaches the wire. *)
Theorem configure_adc_type_error (mode polarity : string)
                                 (channels : list Z) (gain : Z) (w : world) :
  valid_args mode polarity channels gain ->
  (exists v, AD7193.config_value mode polarity channels gain = Ok v) /\
  AD7193.configure_adc mode polarity channels gain w =
  (Raise (TypeError "can't concat int to bytes"), w).
Proof.
  intros Hv.
  destruct (config_value_valid mode polarity channels gain Hv)
    as (code & _ & _ & E).
  split; [eexists; exact E|].
  unfold AD7193.configure_adc, bind, lift. rewrite E.
  apply write_register_int.
Qed.

Lemma configure_adc_type_error_example :
  valid_args "pseudo-differential" "unipolar" [1; 2; 3; 4] 32 /\
  AD7193.configure_adc "pseudo-differential" "unipolar" [1; 2; 3; 4] 32 idle =
  (Raise (TypeError "can't concat int to bytes"), idle).
Proof.
  assert (Hv : valid_args "pseudo-differential" "unipolar" [1; 2; 3; 4] 32).
  { split; [cbn; tauto | split; [cbn; tauto |]].
    left. split; [reflexivity|]. repeat constructor; lia. }
  split; [exact Hv | exact (proj2 (configure_adc_type_error _ _ _ _ idle Hv))].
Defined.

(** [configure_adc] never writes: every call ends in an exception with the
    world unchanged. *)
Lemma configure_adc_never_writes (mode polarity : string)
                                 (channels : list Z) (gain : Z) (w : world) :
  exists e, AD7193.configure_adc mode polarity channels gain w = (Raise e, w).
Proof.
  unfold AD7193.configure_adc, bind, lift.
  destruct (AD7193.config_value mode polarity channels gain) as [v|e].
  - eexists. apply write_register_int.
  - now exists e.
Qed.

(** C2 (as stated).  The value built for pseudo-differential, unipolar,
    channels 1..4, gain 32 is 0x150F, not 0x1005. *)
Lemma config_value_is_not_0x1005 :
  AD7193.config_value "pseudo-differential" "unipolar" [1; 2; 3; 4] 32
    = Ok 0x150F /\
  AD7193.config_value "pseudo-differential" "unipolar" [1; 2; 3; 4] 32
    <> Ok 0x1005.
Proof. split; [reflexivity | discriminate]. Qed.

(** C2 (amended).  The value built for pseudo-differential, unipolar,
    channels 1..4, gain 32 is 0x150F: channel bits 0..3 set in the mask
    (bits 7..0), the gain code 0b101 of gain 32 in bits 10..8, bit 11
    clear, the unipolar flag in bit 12, and nothing above. *)
Theorem config_value_example :
  dict_item AD7193.gain_map 32 = Ok 5 /\
  AD7193.config_value "pseudo-differential" "unipolar" [1; 2; 3; 4] 32
    = Ok 0x150F /\
  Z.land 0x150F 0xFF = 0x0F /\
  Z.land (Z.shiftr 0x150F 8) 0x7 = 5 /\
  Z.testbit 0x150F 11 = false /\
  Z.testbit 0x150F 12 = true /\
  Z.shiftr 0x150F 13 = 0.
Proof. repeat apply conj; reflexivity. Qed.

(** C7.  [configure_adc] checks, in this order, the mode, the polarity,
    the gain and the channels, and raises the error of the first check
    that fails: [InvalidMode] for a mode outside the two, [InvalidPolarity]
    for a polarity outside the two, [InvalidGain] for a gain outside
    1, 8, 16, 32, 64, 128, and the mode's [InvalidChannel] for a channel
    outside 1..8 (pseudo-differential) or 1..4 (differential); so for
    channel 9 in pseudo-differential and channel 5 in differential mode.
    Nothing is written. *)
Theorem configure_adc_validation (mode polarity : string)
                                 (channels : list Z) (gain : Z) (w : world) :
  (~ In mode adc_modes ->
   AD7193.configure_adc mode polarity channels gain w =
     (Raise AD7193.InvalidMode, w)) /\
  (In mode adc_modes -> ~ In polarity adc_polarities ->
   AD7193.configure_adc mode polarity channels gain w =
     (Raise AD7193.InvalidPolarity, w)) /\
  (In mode adc_modes -> In polarity adc_polarities -> ~ In gain adc_gains ->
   AD7193.configure_adc mode polarity channels gain w =
     (Raise AD7193.InvalidGain, w)) /\
  (mode = "pseudo-differential" ->
   In polarity adc_polarities -> In gain adc_gains ->
   Exists (fun ch => ~ 1 <= ch <= 8) channels ->
   AD7193.configure_adc mode polarity channels gain w =
     (Raise AD7193.InvalidChannelPseudo, w)) /\
  (mode = "differential" ->
   In polarity adc_polarities -> In gain adc_gains ->
   Exists (fun ch => ~ 1 <= ch <= 4) channels ->
   AD7193.configure_adc mode polarity channels gain w =
     (Raise AD7193.InvalidChannelDiff, w)) /\
  (In polarity adc_polarities -> In gain adc_gains ->
   AD7193.configure_adc "pseudo-differential" polarity [9] gain w =
     (Raise AD7193.InvalidChannelPseudo, w) /\
   AD7193.configure_adc "differential" polarity [5] gain w =
     (Raise AD7193.InvalidChannelDiff, w)).
Proof.
  assert (Hpseudo : forall chs,
    In polarity adc_polarities -> In gain adc_gains ->
    Exists (fun ch => ~ 1 <= ch <= 8) chs ->
    AD7193.configure_adc "pseudo-differential" polarity chs gain w =
      (Raise AD7193.InvalidChannelPseudo, w)).
  { intros chs Hpol Hgain HE.
    unfold AD7193.configure_adc, bind, lift, AD7193.config_value.
    apply str_in_iff in Hpol. apply gain_map_keys in Hgain.
    fold adc_polarities. rewrite Hpol, Hgain.
    cbn [str_in existsb]. rewrite String.eqb_refl. cbn [orb negb].
    destruct (channel_loop_cases 8 AD7193.InvalidChannelPseudo chs 0)
      as [[HF _]|[_ E]]; [|now rewrite E].
    exfalso. exact (Forall_Exists_absurd _ _ HF HE). }
  assert (Hdiff : forall chs,
    In polarity adc_polarities -> In gain adc_gains ->
    Exists (fun ch => ~ 1 <= ch <= 4) chs ->
    AD7193.configure_adc "differential" polarity chs gain w =
      (Raise AD7193.InvalidChannelDiff, w)).
  { intros chs Hpol Hgain HE.
    unfold AD7193.configure_adc, bind, lift, AD7193.config_value.
    apply str_in_iff in Hpol. apply gain_map_keys in Hgain.
    fold adc_polarities. rewrite Hpol, Hgain.
    change (str_in "differential" ["pseudo-differential"; "differential"])
      with true.
    change ("differential" =? "pseudo-differential")%string with false.
    rewrite String.eqb_refl. cbn [negb].
    destruct (channel_loop_cases 4 AD7193.InvalidChannelDiff chs 0)
      as [[HF _]|[_ E]]; [|now rewrite E].
    exfalso. exact (Forall_Exists_absurd _ _ HF HE). }
  repeat apply conj.
  - intros Hmode.
    unfold AD7193.configure_adc, bind, lift, AD7193.config_value.
    fold adc_modes.
    destruct (str_in mode adc_modes) eqn:E; [|reflexivity].
    apply str_in_iff in E. contradiction.
  - intros Hmode Hpol.
    unfold AD7193.configure_adc, bind, lift, AD7193.config_value.
    fold adc_modes adc_polarities.
    apply str_in_iff in Hmode. rewrite Hmode. cbn [negb].
    destruct (str_in polarity adc_polarities) eqn:E; [|reflexivity].
    apply str_in_iff in E. contradiction.
  - intros Hmode Hpol Hgain.
    unfold AD7193.configure_adc, bind, lift, AD7193.config_value.
    fold adc_modes adc_polarities.
    apply str_in_iff in Hmode. apply str_in_iff in Hpol.
    rewrite Hmode, Hpol. cbn [negb].
    destruct (dict_mem AD7193.gain_map gain) eqn:E; [|reflexivity].
    apply gain_map_keys in E. contradiction.
  - intros ->. apply Hpseudo.
  - intros ->. apply Hdiff.
  - intros Hpol Hgain. split.
    + apply Hpseudo; try assumption. apply Exists_cons_hd. lia.
    + apply Hdiff; try assumption. apply Exists_cons_hd. lia.
Qed.

Lemma configure_adc_validation_examples :
  AD7193.configure_adc "single-ended" "bipolar" [1] 1 idle =
    (Raise AD7193.InvalidMode, idle) /\
  AD7193.configure_adc "differential" "positive" [1] 1 idle =
    (Raise AD7193.InvalidPolarity, idle) /\
  AD7193.configure_adc "differential" "bipolar" [1] 2 idle =
    (Raise AD7193.InvalidGain, idle) /\
  AD7193.configure_adc "pseudo-differential" "bipolar" [9] 1 idle =
    (Raise AD7193.InvalidChannelPseudo, idle) /\
  AD7193.configure_adc "differential" "bipolar" [5] 1 idle =
    (Raise AD7193.InvalidChannelDiff, idle).
Proof.
  assert (Hpol : In "bipolar" adc_polarities) by (cbn; tauto).
  assert (Hgain : In 1 adc_gains) by (cbn; tauto).
  assert (Hmode : In "differential" adc_modes) by (cbn; tauto).
  repeat apply conj.
  - apply (proj1 (configure_adc_validation "single-ended" "bipolar" [1] 1
                    idle)).
    cbn. intros [H|[H|[]]]; discriminate H.
  - apply (proj1 (proj2 (configure_adc_validation "differential" "positive"
                           [1] 1 idle))); [exact Hmode|].
    cbn. intros [H|[H|[]]]; discriminate H.
  - apply (proj1 (proj2 (proj2 (configure_adc_validation "differential"
                                  "bipolar" [1] 2 idle))));
      [exact Hmode | exact Hpol |].
    cbn. intros [H|[H|[H|[H|[H|[H|[]]]]]]]; discriminate H.
  - apply (proj2 (proj2 (proj2 (proj2 (proj2
             (configure_adc_validation "differential" "bipolar" [1] 1
                idle)))))); assumption.
  - apply (proj2 (proj2 (proj2 (proj2 (proj2
             (configure_adc_validation "differential" "bipolar" [1] 1
                idle)))))); assumption.
Defined.

End AdcConfiguration.

(* ------------------------------------------------------------------------- *)
(** ** AD7193: reading the channel mask back *)

Section AdcReadback.

Lemma append_loop_filter {A} (f : A -> bool) (l : list A) :
  forall acc,
    fold_left (fun acc x => if f x then acc ++ [x] else acc) l acc
    = acc ++ filter f l.
Proof.
  induction l as [|x l IH]; intros acc; cbn.
  - now rewrite app_nil_r.
  - rewrite IH. destruct (f x); [|reflexivity].
    now rewrite <- app_assoc.
Qed.

Lemma active_channels_filter (config : Z) :
  AD7193.active_channels_of config =
  filter (fun channel => truthy (Z.land config (Z.shiftl 1 channel)))
         (range 8).
Proof. unfold AD7193.active_channels_of. now rewrite append_loop_filter. Qed.

Lemma in_range (n : nat) (k : Z) : In k (range n) <-> 0 <= k < Z.of_nat n.
Proof.
  unfold range. rewrite in_map_iff. split.
  - intros (i & <- & Hi). apply in_seq in Hi. lia.
  - intros Hk. exists (Z.to_nat k). split; [lia|]. apply in_seq. lia.
Qed.

(** The readback lists channel [k] when [k] is one of 0..7 and bit [k] of
    the register value is set. *)
Lemma in_active_channels (config k : Z) :
  In k (AD7193.active_channels_of config) <->
  0 <= k < 8 /\ Z.testbit config k = true.
Proof.
  rewrite active_channels_filter, filter_In, in_range.
  change (Z.of_nat 8) with 8. split.
  - intros [Hk Hb]. rewrite truthy_land_bit in Hb by lia. tauto.
  - intros [Hk Hb]. rewrite truthy_land_bit by lia. tauto.
Qed.





End AdcReadback.

(* ------------------------------------------------------------------------- *)
(** ** AD7193: waiting for a conversion *)

Section AdcPolling.

Lemma not_int_rdy (status : Z) :
  not_int (Z.land status 0x80) = negb (Z.testbit status 7).
Proof.
  rewrite <- (truthy_land_bit status 7) by lia.
  unfold truthy, not_int. now rewrite negb_involutive.
Qed.

(** One poll: a 1-byte read of the status register, command byte 0x40;
    ready when bit 7 of the byte read is clear. *)
Lemma data_ready_polls (w : world) :
  AD7193.data_ready w = (Ok (negb (busy (miso w (rx_pos w)))), polled w).
Proof.
  unfold AD7193.data_ready, bind. change 1 with (Z.of_nat 1).
  rewrite read_register_bytes. cbn [seq map lift item0 ret].
  now rewrite not_int_rdy.
Qed.

Lemma wait_turn_ready (start timeout now : float) (w : world) :
  busy (miso w (rx_pos w)) = false ->
  AD7193.wait_turn start timeout now w = (Ok false, polled w).
Proof.
  intros Hb. unfold AD7193.wait_turn, bind.
  now rewrite data_ready_polls, Hb.
Qed.

Lemma wait_turn_expired (start timeout now : float) (w : world) :
  busy (miso w (rx_pos w)) = true ->
  expired start timeout now = true ->
  AD7193.wait_turn start timeout now w = (Raise AD7193.Timeout, polled w).
Proof.
  intros Hb Ht. unfold AD7193.wait_turn, bind.
  rewrite data_ready_polls, Hb. cbn [negb]. fold (expired start timeout now).
  now rewrite Ht.
Qed.

Lemma wait_turn_sleeps (start timeout now : float) (w : world) :
  busy (miso w (rx_pos w)) = true ->
  expired start timeout now = false ->
  AD7193.wait_turn start timeout now w = (Ok true, slept w).
Proof.
  intros Hb Ht. unfold AD7193.wait_turn, bind.
  rewrite data_ready_polls, Hb. cbn [negb]. fold (expired start timeout now).
  now rewrite Ht.
Qed.

Lemma after_turns_fields (n : nat) :
  forall w,
    miso (after_turns n w) = miso w /\
    rx_pos (after_turns n w) = (rx_pos w + n)%nat /\
    xfer_time (after_turns n w) = xfer_time w /\
    clock (after_turns n w) = clock w + Z.of_nat n * (xfer_time w + 1000).
Proof.
  induction n as [|n IH]; intros w; cbn [after_turns].
  - repeat apply conj; try reflexivity; [now rewrite Nat.add_0_r | lia].
  - destruct (IH (slept w)) as (Hm & Hr & Hx & Hc).
    rewrite Hm, Hr, Hx, Hc. cbn [slept miso rx_pos xfer_time clock].
    repeat apply conj; try reflexivity; lia.
Qed.

(** The loop leaves at the first poll that finds RDY clear, if the clock
    had not run out at the checks before. *)
Lemma wait_loop_ready (start timeout : float) (monotonic : nat -> float)
                      (k : nat) :
  forall w call fuel,
    (forall j, (j < k)%nat -> busy (miso w (rx_pos w + j)%nat) = true) ->
    busy (miso w (rx_pos w + k)%nat) = false ->
    (forall j, (j < k)%nat ->
               expired start timeout (monotonic (call + j)%nat) = false) ->
    (k < fuel)%nat ->
    AD7193.wait_loop fuel start timeout monotonic call w =
    Some (Ok tt, polled (after_turns k w)).
Proof.
  induction k as [|k IH]; intros w call fuel Hbusy Hready Hclock Hfuel;
    (destruct fuel as [|fuel]; [lia|]); cbn [AD7193.wait_loop after_turns].
  - rewrite Nat.add_0_r in Hready. now rewrite wait_turn_ready.
  - rewrite wait_turn_sleeps.
    + apply IH; [| | |lia].
      * intros j Hj. cbn [slept miso rx_pos].
        replace (rx_pos w + 1 + j)%nat with (rx_pos w + S j)%nat by lia.
        apply Hbusy. lia.
      * cbn [slept miso rx_pos].
        now replace (rx_pos w + 1 + k)%nat with (rx_pos w + S k)%nat by lia.
      * intros j Hj.
        replace (S call + j)%nat with (call + S j)%nat by lia.
        apply Hclock. lia.
    + rewrite <- (Nat.add_0_r (rx_pos w)). apply Hbusy. lia.
    + rewrite <- (Nat.add_0_r call). apply Hclock. lia.
Qed.

(** While the chip is busy the loop ends in [Timeout] at the first check
    at which the clock has run out. *)
Lemma wait_loop_expires (start timeout : float) (monotonic : nat -> float)
                        (n : nat) :
  forall w call fuel,
    (forall j, (j <= n)%nat -> busy (miso w (rx_pos w + j)%nat) = true) ->
    (forall j, (j < n)%nat ->
               expired start timeout (monotonic (call + j)%nat) = false) ->
    expired start timeout (monotonic (call + n)%nat) = true ->
    (n < fuel)%nat ->
    AD7193.wait_loop fuel start timeout monotonic call w =
    Some (Raise AD7193.Timeout, polled (after_turns n w)).
Proof.
  induction n as [|n IH]; intros w call fuel Hbusy Hclock Hout Hfuel;
    (destruct fuel as [|fuel]; [lia|]); cbn [AD7193.wait_loop after_turns].
  - rewrite Nat.add_0_r in Hout. rewrite wait_turn_expired; [reflexivity| |].
    + rewrite <- (Nat.add_0_r (rx_pos w)). apply Hbusy. lia.
    + exact Hout.
  - rewrite wait_turn_sleeps.
    + apply IH; [| | |lia].
      * intros j Hj. cbn [slept miso rx_pos].
        replace (rx_pos w + 1 + j)%nat with (rx_pos w + S j)%nat by lia.
        apply Hbusy. lia.
      * intros j Hj.
        replace (S call + j)%nat with (call + S j)%nat by lia.
        apply Hclock. lia.
      * now replace (S call + n)%nat with (call + S n)%nat by lia.
    + rewrite <- (Nat.add_0_r (rx_pos w)). apply Hbusy. lia.
    + rewrite <- (Nat.add_0_r call). apply Hclock. lia.
Qed.

(** While the chip is busy and the clock has not run out, the loop goes
    on. *)
Lemma wait_loop_runs_on (start timeout : float) (monotonic : nat -> float)
                        (fuel : nat) :
  forall w call,
    never_ready w ->
    (forall j, expired start timeout (monotonic (call + j)%nat) = false) ->
    AD7193.wait_loop fuel start timeout monotonic call w = None.
Proof.
  induction fuel as [|fuel IH]; intros w call Hnever Hclock;
    cbn [AD7193.wait_loop]; [reflexivity|].
  rewrite wait_turn_sleeps.
  - apply IH; [exact Hnever|]. intros j.
    replace (S call + j)%nat with (call + S j)%nat by lia. apply Hclock.
  - apply Hnever.
  - rewrite <- (Nat.add_0_r call). apply Hclock.
Qed.

(** C8.  [wait_for_data_ready(timeout)] polls the status register and,
    between two polls, asks for a sleep of 1 ms: a turn that finds RDY
    (bit 7) set with the clock not run out ends with [sleep 1000].  The
    clock has run out at a check when [(now - start) > timeout] holds on
    the floats read.  Against a chip whose every status byte has bit 7
    set, the call raises [Timeout] at the first check at which the clock
    has run out, whatever the readings before it were.  If the poll number
    [k] is the first to find bit 7 clear and the clock had not run out at
    the checks before it, the call returns at that poll, without
    raising. *)
Theorem wait_for_data_ready_polls (timeout : float)
                                  (monotonic : nat -> float) (w : world) :
  let start := monotonic 0%nat in
  (forall now,
     busy (miso w (rx_pos w)) = true ->
     expired start timeout now = false ->
     AD7193.wait_turn start timeout now w = (Ok true, slept w) /\
     clock (slept w) = clock (polled w) + 1000) /\
  (never_ready w ->
   forall n,
     (forall j, (j < n)%nat ->
        expired start timeout (monotonic (S j)) = false) ->
     expired start timeout (monotonic (S n)) = true ->
     forall fuel, (n < fuel)%nat ->
       AD7193.wait_for_data_ready fuel timeout monotonic w =
       Some (Raise AD7193.Timeout, polled (after_turns n w))) /\
  (forall k,
     (forall j, (j < k)%nat -> busy (miso w (rx_pos w + j)%nat) = true) ->
     busy (miso w (rx_pos w + k)%nat) = false ->
     (forall j, (j < k)%nat ->
        expired start timeout (monotonic (S j)) = false) ->
     forall fuel, (k < fuel)%nat ->
       AD7193.wait_for_data_ready fuel timeout monotonic w =
       Some (Ok tt, polled (after_turns k w))).
Proof.
  intros start. split; [|split].
  - intros now Hb Ht. split; [now apply wait_turn_sleeps | reflexivity].
  - intros Hnever n Hclock Hout fuel Hfuel.
    unfold AD7193.wait_for_data_ready.
    apply wait_loop_expires; try assumption.
    intros j _. apply Hnever.
  - intros k Hbusy Hready Hclock fuel Hfuel.
    unfold AD7193.wait_for_data_ready.
    now apply wait_loop_ready.
Qed.

Lemma wait_for_data_ready_polls_stuck :
  never_ready stuck /\
  ms_clock 300 0 = 0.3%float /\ ms_clock 300 11 = 0.31%float /\
  expired 0.3 0.01 0.31 = true /\
  AD7193.wait_for_data_ready 11 0.01 (ms_clock 300) stuck =
    Some (Raise AD7193.Timeout, polled (after_turns 10 stuck)) /\
  rx_pos (polled (after_turns 10 stuck)) = 11%nat /\
  forall fuel, (10 < fuel)%nat ->
    AD7193.wait_for_data_ready fuel 0.01 (ms_clock 300) stuck =
    Some (Raise AD7193.Timeout, polled (after_turns 10 stuck)).
Proof.
  assert (Hnever : never_ready stuck) by (intros n; reflexivity).
  repeat apply conj; try reflexivity; [exact Hnever|].
  apply (proj1 (proj2 (wait_for_data_ready_polls 0.01 (ms_clock 300) stuck))
           Hnever 10%nat).
  - intros j Hj. do 10 (destruct j as [|j]; [reflexivity|]). lia.
  - reflexivity.
Defined.

End AdcPolling.

(* ------------------------------------------------------------------------- *)
(** ** More on integers and bytes *)

Section Bounds.

Lemma from_bytes_range (b : list byte) :
  0 <= from_bytes b < 256 ^ Z.of_nat (List.length b).
Proof.
  induction b as [|x b IH] using rev_ind.
  - cbn. lia.
  - rewrite from_bytes_snoc, length_app, Nat2Z.inj_add. cbn [List.length].
    rewrite Z.pow_add_r by lia. change (256 ^ Z.of_nat 1) with 256.
    assert (Hx : 0 <= byte.unsigned x < 256).
    { unfold byte.unsigned. pose proof (Byte.to_N_bounded x) as Hb.
      lia. }
    nia.
Qed.

Lemma lor_below (a b n : Z) :
  0 <= n -> 0 <= a < 2 ^ n -> 0 <= b < 2 ^ n -> 0 <= Z.lor a b < 2 ^ n.
Proof.
  intros Hn Ha Hb. split; [apply Z.lor_nonneg; lia|].
  destruct (Z.eq_dec (Z.lor a b) 0) as [->|Hnz]; [lia|].
  assert (Hpos : 0 < Z.lor a b).
  { assert (0 <= Z.lor a b) by (apply Z.lor_nonneg; lia). lia. }
  apply Z.log2_lt_pow2; [assumption|].
  rewrite Z.log2_lor by lia.
  assert (Hla : Z.log2 a < n \/ a = 0).
  { destruct (Z.eq_dec a 0); [now right | left; apply Z.log2_lt_pow2; lia]. }
  assert (Hlb : Z.log2 b < n \/ b = 0).
  { destruct (Z.eq_dec b 0); [now right | left; apply Z.log2_lt_pow2; lia]. }
  assert (Hn0 : 0 < n).
  { destruct (Z.eq_dec n 0) as [->|]; [|lia]. change (2 ^ 0) with 1 in *.
    assert (a = 0) by lia. assert (b = 0) by lia. subst. now cbn in Hnz. }
  destruct Hla as [Hla| ->], Hlb as [Hlb| ->]; cbn [Z.log2]; lia.
Qed.

Lemma lor_above (a b n : Z) :
  0 <= n -> 0 <= a -> 2 ^ n <= b -> 2 ^ n <= Z.lor a b.
Proof.
  intros Hn Ha Hb.
  assert (Hp : 0 < 2 ^ n) by (apply Z.pow_pos_nonneg; lia).
  assert (Hpos : 0 < Z.lor a b).
  { assert (0 <= Z.lor a b) by (apply Z.lor_nonneg; lia).
    destruct (Z.eq_dec (Z.lor a b) 0) as [E|]; [|lia].
    apply Z.lor_eq_0_iff in E. lia. }
  apply Z.log2_le_pow2; [assumption|].
  rewrite Z.log2_lor by lia.
  assert (n <= Z.log2 b) by (apply Z.log2_le_pow2; lia). lia.
Qed.

End Bounds.

(* ------------------------------------------------------------------------- *)
(** ** AD5628: what every command does to the bus *)

Section DacFrame.

Lemma send_data_one_write (v : Z) : one_write (AD5628.send_data v).
Proof.
  intros w. destruct (Z.lt_ge_cases v 0) as [Hneg|Hpos].
  - left. eexists. now apply send_data_negative.
  - destruct (Z.lt_ge_cases v (2 ^ 32)) as [Hfit|Hbig].
    + right. exists (be_bytes 4 v). split; [apply length_be_bytes|].
      now apply send_data_fits.
    + left. eexists. now apply send_data_too_big.
Qed.

(** X1.  Every method of the DAC driver, whatever its arguments, either raises
    with the world untouched or performs exactly one chip-select window
    with a single 4-byte write.  It never reads from the chip and never
    leaves a transfer half done. *)
Theorem dac_methods_one_write (channel data code : Z) :
  one_write (AD5628.write_register channel data) /\
  one_write (AD5628.update_dac channel data) /\
  one_write (AD5628.write_update_dac channel data) /\
  one_write AD5628.tester /\
  one_write AD5628.power_down /\
  one_write (AD5628.load_clear_code code) /\
  one_write (AD5628.load_ldac channel) /\
  one_write (AD5628.update_ldac channel data) /\
  one_write AD5628.reset /\
  one_write AD5628.internal_ref_mode.
Proof.
  assert (Hraise : forall e, one_write (raise e)).
  { intros e w. left. now exists e. }
  repeat apply conj; try apply send_data_one_write.
  - unfold AD5628.update_dac.
    destruct (_ && _); [apply Hraise | apply send_data_one_write].
  - unfold AD5628.write_update_dac.
    destruct (_ && _); [apply Hraise | apply send_data_one_write].
  - unfold AD5628.load_clear_code.
    destruct (negb _); [apply Hraise | apply send_data_one_write].
  - unfold AD5628.load_ldac. destruct (_ && _); [apply Hraise|].
    intros w. unfold bind, lift, lshift.
    destruct (channel <? 0); [left; now eexists | apply send_data_one_write].
Qed.

(** X2.  [send_data] puts a value on the wire exactly when it is an unsigned
    32-bit integer, and the four bytes it writes read back, big-endian, as
    that value; any other value raises OverflowError with nothing sent. *)
Theorem send_data_accepts (value : Z) (w : world) :
  (fst (AD5628.send_data value w) = Ok tt <-> 0 <= value < 2 ^ 32) /\
  (0 <= value < 2 ^ 32 ->
   exists bs,
     AD5628.send_data value w = (Ok tt, sent bs w) /\
     List.length bs = 4%nat /\ from_bytes bs = value) /\
  (~ 0 <= value < 2 ^ 32 ->
   exists msg, AD5628.send_data value w = (Raise (OverflowError msg), w)).
Proof.
  split; [|split].
  - split.
    + intros H. destruct (Z.lt_ge_cases value 0) as [Hneg|Hpos].
      * rewrite send_data_negative in H by assumption. discriminate.
      * destruct (Z.lt_ge_cases value (2 ^ 32)) as [Hfit|Hbig]; [lia|].
        rewrite send_data_too_big in H by assumption. discriminate.
    + intros Hv. now rewrite send_data_fits.
  - intros Hv. exists (be_bytes 4 value). repeat apply conj.
    + now apply send_data_fits.
    + apply length_be_bytes.
    + rewrite from_bytes_be_bytes. apply Z.mod_small.
      now change (256 ^ Z.of_nat 4) with (2 ^ 32).
  - intros Hv. destruct (Z.lt_ge_cases value 0) as [Hneg|Hpos].
    + eexists. now apply send_data_negative.
    + eexists. apply send_data_too_big. lia.
Qed.

Lemma dac_command_range (opcode c data : Z) :
  0 <= opcode < 16 -> 0 <= c < 16 ->
  let command :=
    Z.lor (Z.lor (Z.shiftl opcode 24) (Z.shiftl c 20)) (Z.shiftl data 8) in
  0 <= command < 2 ^ 32 <-> 0 <= data < 2 ^ 24.
Proof.
  intros Ho Hc command. subst command.
  assert (Hhead : 0 <= Z.lor (Z.shiftl opcode 24) (Z.shiftl c 20) < 2 ^ 32).
  { rewrite (Z.shiftl_mul_pow2 c) by lia.
    rewrite lor_fields by (change (2 ^ 20) with 1048576;
                           change (2 ^ 24) with 16777216; lia).
    change (2 ^ 20) with 1048576. change (2 ^ 24) with 16777216.
    change (2 ^ 32) with 4294967296. lia. }
  rewrite (Z.shiftl_mul_pow2 data) by lia. change (2 ^ 8) with 256.
  split.
  - intros [Hlo Hhi]. apply Z.lor_nonneg in Hlo.
    destruct (Z.lt_ge_cases data (2 ^ 24)) as [Hd|Hd]; [lia|].
    change (2 ^ 24) with 16777216 in Hd.
    assert (2 ^ 32 <= Z.lor (Z.lor (Z.shiftl opcode 24) (Z.shiftl c 20))
                            (data * 256)).
    { apply lor_above; [lia | apply Hhead |].
      change (2 ^ 32) with 4294967296. lia. }
    lia.
  - intros Hd. change (2 ^ 24) with 16777216 in Hd.
    apply lor_below; [lia | assumption |].
    change (2 ^ 32) with 4294967296. lia.
Qed.

(** X3.  For a channel address of the DAC, [update_dac] and [write_update_dac]
    send their command exactly when the data is an unsigned integer of at
    most 24 bits, and then send the word as built, data unmasked.  There is
    no check of the data: negative data, and data of 2^24 or more, get as
    far as [to_bytes] and end in its OverflowError, with nothing sent. *)
Theorem update_dac_data_accepted (c data : Z) (w : world) :
  dac_channel c ->
  (fst (AD5628.update_dac c data w) = Ok tt <-> 0 <= data < 2 ^ 24) /\
  (fst (AD5628.write_update_dac c data w) = Ok tt <-> 0 <= data < 2 ^ 24) /\
  (0 <= data < 2 ^ 24 ->
   AD5628.update_dac c data w =
     (Ok tt,
      sent (be_bytes 4 (Z.lor (Z.lor (Z.shiftl AD5628.CMD_UPDATE_DAC 24)
                                     (Z.shiftl c 20))
                              (Z.shiftl data 8))) w) /\
   AD5628.write_update_dac c data w =
     (Ok tt,
      sent (be_bytes 4 (Z.lor (Z.lor
                                 (Z.shiftl AD5628.CMD_WRITE_AND_UPDATE_DAC 24)
                                 (Z.shiftl c 20))
                              (Z.shiftl data 8))) w)) /\
  (data < 0 ->
   AD5628.update_dac c data w =
     (Raise (OverflowError "can't convert negative int to unsigned"), w) /\
   AD5628.write_update_dac c data w =
     (Raise (OverflowError "can't convert negative int to unsigned"), w)) /\
  (2 ^ 24 <= data ->
   AD5628.update_dac c data w =
     (Raise (OverflowError "int too big to convert"), w) /\
   AD5628.write_update_dac c data w =
     (Raise (OverflowError "int too big to convert"), w)).
Proof.
  intros Hc.
  assert (Hc16 : 0 <= c < 16) by (destruct Hc; lia).
  assert (Hc' : c < 8 \/ c = 15) by (destruct Hc; [left; lia | now right]).
  assert (Hsend : forall v, fst (AD5628.send_data v w) = Ok tt
                            <-> 0 <= v < 2 ^ 32).
  { intros v. split.
    - intros H. destruct (Z.lt_ge_cases v 0) as [Hneg|Hpos].
      + rewrite send_data_negative in H by assumption. discriminate.
      + destruct (Z.lt_ge_cases v (2 ^ 32)) as [Hfit|Hbig]; [lia|].
        rewrite send_data_too_big in H by assumption. discriminate.
    - intros Hv. now rewrite send_data_fits. }
  assert (Hword : forall opcode, 0 <= opcode < 16 ->
    let command :=
      Z.lor (Z.lor (Z.shiftl opcode 24) (Z.shiftl c 20)) (Z.shiftl data 8) in
    (0 <= data < 2 ^ 24 ->
     AD5628.send_data command w = (Ok tt, sent (be_bytes 4 command) w)) /\
    (data < 0 ->
     AD5628.send_data command w =
     (Raise (OverflowError "can't convert negative int to unsigned"), w)) /\
    (2 ^ 24 <= data ->
     AD5628.send_data command w =
     (Raise (OverflowError "int too big to convert"), w))).
  { intros opcode Ho command.
    pose proof (dac_command_range opcode c data Ho Hc16) as Hrange.
    cbv zeta in Hrange. fold command in Hrange.
    repeat apply conj.
    - intros Hd. apply send_data_fits. now apply Hrange.
    - intros Hd. apply send_data_negative. apply Z.lor_neg. right.
      now apply Z.shiftl_neg.
    - intros Hd. apply send_data_too_big.
      assert (Hnn : 0 <= command).
      { subst command. apply Z.lor_nonneg. split.
        - apply Z.lor_nonneg. split; apply Z.shiftl_nonneg; lia.
        - apply Z.shiftl_nonneg.
          apply Z.le_trans with (2 ^ 24); [discriminate | assumption]. }
      destruct (Z.lt_ge_cases command (2 ^ 32)) as [Hlt|Hge]; [|exact Hge].
      assert (H : 0 <= data < 2 ^ 24) by (apply Hrange; lia). lia. }
  assert (Ho1 : 0 <= AD5628.CMD_UPDATE_DAC < 16)
    by (unfold AD5628.CMD_UPDATE_DAC; lia).
  assert (Ho3 : 0 <= AD5628.CMD_WRITE_AND_UPDATE_DAC < 16)
    by (unfold AD5628.CMD_WRITE_AND_UPDATE_DAC; lia).
  destruct (Hword _ Ho1) as (Hin1 & Hneg1 & Hbig1).
  destruct (Hword _ Ho3) as (Hin3 & Hneg3 & Hbig3).
  unfold AD5628.update_dac, AD5628.write_update_dac.
  rewrite channel_check_passes by assumption.
  split; [|split; [|split; [|split]]].
  - rewrite Hsend. now apply dac_command_range.
  - rewrite Hsend. now apply dac_command_range.
  - intros Hd. split; [now apply Hin1 | now apply Hin3].
  - intros Hd. split; [now apply Hneg1 | now apply Hneg3].
  - intros Hd. split; [now apply Hbig1 | now apply Hbig3].
Qed.

Lemma update_dac_data_accepted_24_bits :
  dac_channel 7 /\
  fst (AD5628.update_dac 7 0xFFFFFF idle) = Ok tt /\
  fst (AD5628.update_dac 7 0x1000000 idle) <> Ok tt.
Proof.
  assert (Hc : dac_channel 7) by (left; lia).
  split; [exact Hc | split].
  - apply (proj1 (update_dac_data_accepted 7 0xFFFFFF idle Hc)).
    split; [lia | reflexivity].
  - intros H.
    apply (proj1 (update_dac_data_accepted 7 0x1000000 idle Hc)) in H.
    destruct H as [_ H]. now apply Z.lt_irrefl in H.
Defined.

(** X4.  Data wider than 12 bits runs into the address field: [update_dac] on
    channel 0 with data c * 2^12 + d does exactly what [update_dac] on
    channel c with data d does, and so for [write_update_dac]. *)
Theorem update_dac_data_spills (c d : Z) (w : world) :
  dac_channel c -> 0 <= d < 2 ^ 12 ->
  AD5628.update_dac 0 (c * 2 ^ 12 + d) w = AD5628.update_dac c d w /\
  AD5628.write_update_dac 0 (c * 2 ^ 12 + d) w =
    AD5628.write_update_dac c d w.
Proof.
  intros Hc Hd.
  assert (Hc16 : 0 <= c < 16) by (destruct Hc; lia).
  assert (Hc' : c < 8 \/ c = 15) by (destruct Hc; [left; lia | now right]).
  assert (Hword : forall opcode,
    Z.lor (Z.lor (Z.shiftl opcode 24) (Z.shiftl 0 20))
          (Z.shiftl (c * 2 ^ 12 + d) 8) = dac_word opcode c d).
  { intros opcode. rewrite Z.shiftl_0_l, Z.lor_0_r.
    rewrite (Z.shiftl_mul_pow2 (c * 2 ^ 12 + d)) by lia.
    change (2 ^ 12) with 4096 in *. change (2 ^ 8) with 256.
    rewrite lor_fields by (change (2 ^ 24) with 16777216; lia).
    unfold dac_word. change (2 ^ 24) with 16777216.
    change (2 ^ 20) with 1048576. change (2 ^ 8) with 256. lia. }
  unfold AD5628.update_dac, AD5628.write_update_dac.
  rewrite (channel_check_passes 0) by (left; lia).
  rewrite (channel_check_passes c) by assumption.
  rewrite !Hword, !command_word by assumption. split; reflexivity.
Qed.

Lemma update_dac_data_spills_to_channel_5 :
  dac_channel 5 /\ 0 <= 0x0AB < 2 ^ 12 /\
  AD5628.update_dac 0 0x50AB idle = AD5628.update_dac 5 0x0AB idle.
Proof.
  assert (Hc : dac_channel 5) by (left; lia).
  assert (Hd : 0 <= 0x0AB < 2 ^ 12) by (split; [lia | reflexivity]).
  split; [exact Hc | split; [exact Hd |]].
  exact (proj1 (update_dac_data_spills 5 0x0AB idle Hc Hd)).
Defined.

(** X5.  The DAC's [write_register] checks nothing: for any 4-bit channel,
    8..14 included, and any data at all, it sends the word with opcode 0,
    the channel in bits 23..20 and the data, cut to its low 20 bits, in
    bits 19..0 (not shifted up by 8 as in [update_dac]). *)
Theorem dac_write_register_masks (channel data : Z) (w : world) :
  0 <= channel < 16 ->
  let word := channel * 2 ^ 20 + data mod 2 ^ 20 in
  AD5628.write_register channel data w = (Ok tt, sent (be_bytes 4 word) w) /\
  from_bytes (be_bytes 4 word) = word /\
  word_top4 word = 0 /\ word_command word = 0 /\ word_address word = channel /\
  Z.land word 0xFFFFF = data mod 2 ^ 20.
Proof.
  intros Hc word.
  pose proof (Z.mod_pos_bound data (2 ^ 20) eq_refl) as Hm.
  assert (Hcmd : Z.lor (Z.lor (Z.shiftl AD5628.CMD_WRITE_INPUT_REGISTER 24)
                              (Z.shiftl channel 20))
                       (Z.land data 0xFFFFF) = word).
  { unfold AD5628.CMD_WRITE_INPUT_REGISTER. rewrite Z.shiftl_0_l, Z.lor_0_l.
    change 0xFFFFF with (Z.ones 20). rewrite Z.land_ones by lia.
    now rewrite lor_fields by lia. }
  assert (Hw : 0 <= word < 2 ^ 24).
  { subst word. change (2 ^ 20) with 1048576 in *.
    change (2 ^ 24) with 16777216. lia. }
  unfold AD5628.write_register. rewrite Hcmd.
  unfold word_top4, word_command, word_address.
  change 0xFFFFF with (Z.ones 20). change 0xF with (Z.ones 4).
  rewrite !Z.land_ones, !Z.shiftr_div_pow2 by lia.
  repeat apply conj.
  - apply send_data_fits. split; [lia|].
    apply Z.lt_trans with (2 ^ 24); [lia | reflexivity].
  - rewrite from_bytes_be_bytes. apply Z.mod_small.
    change (256 ^ Z.of_nat 4) with (2 ^ 32). split; [lia|].
    apply Z.lt_trans with (2 ^ 24); [lia | reflexivity].
  - apply Z.div_small. split; [lia|].
    apply Z.lt_trans with (2 ^ 24); [lia | reflexivity].
  - rewrite Z.div_small by lia. reflexivity.
  - subst word. change (2 ^ 20) with 1048576 in *. change (2 ^ 4) with 16.
    Z.div_mod_to_equations. lia.
  - subst word. change (2 ^ 20) with 1048576 in *.
    Z.div_mod_to_equations. lia.
Qed.

Lemma dac_write_register_masks_channel_9 :
  0 <= 9 < 16 /\
  AD5628.write_register 9 (-1) idle =
    (Ok tt, sent [Byte.x00; Byte.x9f; Byte.xff; Byte.xff] idle).
Proof.
  assert (Hc : 0 <= 9 < 16) by lia.
  split; [exact Hc|].
  exact (proj1 (dac_write_register_masks 9 (-1) idle Hc)).
Defined.

End DacFrame.

(* ------------------------------------------------------------------------- *)
(** ** AD5628: the unchecked software-LDAC write *)

Section DacLdacWrite.

(** X6.  [update_ldac] builds the same kind of word as [update_dac], with opcode
    0x2, but without the channel check: for every 4-bit channel and 12-bit
    data it sends the word, also for the addresses 8..14 that [update_dac]
    refuses with [InvalidChannel]. *)
Theorem update_ldac_unchecked (c data : Z) (w : world) :
  0 <= c < 16 -> 0 <= data < 2 ^ 12 ->
  let word := dac_word AD5628.CMD_WRITE_INPUT_UPDATE_ALL c data in
  AD5628.update_ldac c data w = (Ok tt, sent (be_bytes 4 word) w) /\
  from_bytes (be_bytes 4 word) = word /\
  word_command word = AD5628.CMD_WRITE_INPUT_UPDATE_ALL /\
  word_address word = c /\ word_data12 word = data /\
  (8 <= c -> c <> 15 ->
   AD5628.update_dac c data w = (Raise AD5628.InvalidChannel, w)).
Proof.
  intros Hc Hd word.
  assert (Ho : 0 <= AD5628.CMD_WRITE_INPUT_UPDATE_ALL < 16)
    by (unfold AD5628.CMD_WRITE_INPUT_UPDATE_ALL; lia).
  destruct (dac_word_fields _ c data Ho Hc Hd)
    as (Hw & _ & Hcmd & Ha & Hd12 & _).
  fold word in Hw, Hcmd, Ha, Hd12.
  assert (Hw32 : 0 <= word < 2 ^ 32).
  { split; [lia|]. apply Z.lt_trans with (2 ^ 28); [lia | reflexivity]. }
  repeat apply conj; try assumption.
  - unfold AD5628.update_ldac. rewrite command_word by assumption.
    now apply send_data_fits.
  - rewrite from_bytes_be_bytes. apply Z.mod_small.
    now change (256 ^ Z.of_nat 4) with (2 ^ 32).
  - intros H8 H15. unfold AD5628.update_dac.
    now rewrite channel_check_fails.
Qed.

Lemma update_ldac_unchecked_channel_12 :
  0 <= 12 < 16 /\ 0 <= 0x800 < 2 ^ 12 /\
  AD5628.update_ldac 12 0x800 idle =
    (Ok tt, sent [Byte.x02; Byte.xc8; Byte.x00; Byte.x00] idle) /\
  AD5628.update_dac 12 0x800 idle = (Raise AD5628.InvalidChannel, idle).
Proof.
  assert (Hc : 0 <= 12 < 16) by lia.
  assert (Hd : 0 <= 0x800 < 2 ^ 12) by (split; [lia | reflexivity]).
  split; [exact Hc | split; [exact Hd |]].
  pose proof (update_ldac_unchecked 12 0x800 idle Hc Hd) as H.
  split; [exact (proj1 H) | apply H; lia].
Defined.

End DacLdacWrite.

(* ------------------------------------------------------------------------- *)
(** ** AD7193: the packed value, field by field *)

Section AdcLayout.

Lemma mask_of_range (channels : list Z) :
  Forall (fun ch => 1 <= ch <= 8) channels ->
  forall mask, 0 <= mask < 2 ^ 8 -> 0 <= mask_of channels mask < 2 ^ 8.
Proof.
  induction 1 as [|ch rest Hch _ IH]; intros mask Hm; cbn; [assumption|].
  apply IH. apply lor_below; [lia | assumption |].
  rewrite Z.shiftl_1_l. split; [apply Z.pow_nonneg; lia|].
  apply Z.pow_lt_mono_r; lia.
Qed.

Lemma legal_channels_range (mode : string) (channels : list Z) :
  channels_legal mode channels -> Forall (fun ch => 1 <= ch <= 8) channels.
Proof.
  intros [[_ HF]|[_ HF]]; [assumption|].
  eapply Forall_impl; [|exact HF]. cbn. lia.
Qed.

(** The value of [config_value] as a sum of its three fields. *)
Lemma config_value_packed (mode polarity : string) (channels : list Z)
                          (gain : Z) :
  valid_args mode polarity channels gain ->
  exists code,
    dict_item AD7193.gain_map gain = Ok code /\ In code gain_codes /\
    0 <= mask_of channels 0 < 2 ^ 8 /\
    (unipolar_bit polarity = 0 \/ unipolar_bit polarity = 1) /\
    AD7193.config_value mode polarity channels gain =
    Ok (unipolar_bit polarity * 2 ^ 12 + code * 2 ^ 8 + mask_of channels 0).
Proof.
  intros Hv.
  destruct (config_value_valid _ _ _ _ Hv) as (code & Hitem & Hcode & E).
  destruct Hv as (_ & Hgain & Hch).
  assert (Hm : 0 <= mask_of channels 0 < 2 ^ 8).
  { apply mask_of_range; [eapply legal_channels_range; eassumption|].
    split; [lia | reflexivity]. }
  assert (Hu : unipolar_bit polarity = 0 \/ unipolar_bit polarity = 1).
  { unfold unipolar_bit. destruct (polarity =? "bipolar")%string; auto. }
  exists code. repeat apply conj; try assumption; try apply Hm.
  - unfold adc_gains in Hgain. cbn [In] in Hgain. unfold gain_codes.
    destruct Hgain as [<-|[<-|[<-|[<-|[<-|[<-|[]]]]]]];
      injection Hitem as <-; cbn; tauto.
  - rewrite E. f_equal. fold (unipolar_bit polarity).
    rewrite (Z.shiftl_mul_pow2 code) by lia.
    change (2 ^ 8) with 256 in *. change (2 ^ 12) with 4096.
    rewrite lor_fields by (change (2 ^ 12) with 4096; lia).
    change (2 ^ 12) with (16 * 256).
    replace (unipolar_bit polarity * (16 * 256) + code * 256)
      with (Z.shiftl (unipolar_bit polarity * 16 + code) 8)
      by (rewrite Z.shiftl_mul_pow2 by lia; change (2 ^ 8) with 256; lia).
    rewrite lor_fields by (change (2 ^ 8) with 256; lia).
    change (2 ^ 8) with 256. lia.
Qed.

(** X7.  For arguments that pass the checks, the value [configure_adc] builds
    is a 13-bit number: the channel mask in bits 7..0, the gain code of
    [gain_map] in bits 10..8, bit 11 clear, and in bit 12 the flag that is
    0 for 'bipolar' and 1 otherwise.  It fits the three bytes of the
    configuration register. *)
Theorem config_value_layout (mode polarity : string) (channels : list Z)
                            (gain : Z) :
  valid_args mode polarity channels gain ->
  exists v,
    AD7193.config_value mode polarity channels gain = Ok v /\
    0 <= v < 2 ^ 13 /\
    Z.land v 0xFF = mask_of channels 0 /\
    dict_item AD7193.gain_map gain = Ok (Z.land (Z.shiftr v 8) 0x7) /\
    Z.testbit v 11 = false /\
    Z.shiftr v 12 = unipolar_bit polarity /\
    to_bytes v 3 = Ok (be_bytes 3 v) /\
    from_bytes (be_bytes 3 v) = v.
Proof.
  intros Hv.
  destruct (config_value_packed _ _ _ _ Hv)
    as (code & Hitem & Hcode & Hm & Hu & E).
  assert (Hc : 0 <= code < 8).
  { unfold gain_codes in Hcode. cbn [In] in Hcode. lia. }
  eexists. split; [exact E|].
  remember (mask_of channels 0) as mask eqn:Hmask.
  remember (unipolar_bit polarity) as u eqn:Hueq.
  change (2 ^ 8) with 256 in *. change (2 ^ 12) with 4096.
  change (2 ^ 13) with 8192.
  assert (Hv13 : 0 <= u * 4096 + code * 256 + mask < 8192) by lia.
  change 0xFF with (Z.ones 8). change 0x7 with (Z.ones 3).
  rewrite !Z.land_ones, !Z.shiftr_div_pow2 by lia.
  change (2 ^ 8) with 256. change (2 ^ 3) with 8. change (2 ^ 12) with 4096.
  repeat apply conj; try lia.
  - Z.div_mod_to_equations. lia.
  - rewrite Hitem. f_equal. Z.div_mod_to_equations. lia.
  - rewrite <- (Z.div_pow2_bits _ 11 0) by lia. change (2 ^ 11) with 2048.
    replace ((u * 4096 + code * 256 + mask) / 2048) with (2 * u)
      by (Z.div_mod_to_equations; lia).
    apply Z.testbit_even_0.
  - Z.div_mod_to_equations. lia.
  - apply to_bytes_fits. change (256 ^ Z.of_nat 3) with 16777216. lia.
  - rewrite from_bytes_be_bytes. apply Z.mod_small.
    change (256 ^ Z.of_nat 3) with 16777216. lia.
Qed.

Lemma config_value_layout_differential :
  valid_args "differential" "bipolar" [4; 1] 128 /\
  exists v,
    AD7193.config_value "differential" "bipolar" [4; 1] 128 = Ok v /\
    Z.land v 0xFF = mask_of [4; 1] 0.
Proof.
  assert (Hv : valid_args "differential" "bipolar" [4; 1] 128).
  { split; [cbn; tauto | split; [cbn; tauto |]].
    right. split; [reflexivity|]. repeat constructor; lia. }
  split; [exact Hv|].
  destruct (config_value_layout _ _ _ _ Hv) as (v & E & _ & Hmask & _).
  exists v. split; assumption.
Defined.

End AdcLayout.

(* ------------------------------------------------------------------------- *)
(** ** AD7193: configuring, initializing and reading back *)

Section AdcCompose.

Lemma mask_of_same_elements (channels channels' : list Z) :
  Forall (fun ch => 1 <= ch) channels ->
  Forall (fun ch => 1 <= ch) channels' ->
  (forall s, In s channels <-> In s channels') ->
  mask_of channels 0 = mask_of channels' 0.
Proof.
  intros H1 H1' Hsame. apply Z.bits_inj'. intros k Hk.
  apply eq_iff_eq_true.
  rewrite !mask_of_bits by assumption. rewrite Z.bits_0, Hsame. tauto.
Qed.

Lemma channel_loop_same_elements (hi : Z) (err : exn)
                                 (channels channels' : list Z) :
  (forall s, In s channels <-> In s channels') ->
  AD7193.channel_loop hi err channels 0 =
  AD7193.channel_loop hi err channels' 0.
Proof.
  intros Hsame.
  destruct (channel_loop_cases hi err channels 0) as [[HF E]|[HE E]];
    destruct (channel_loop_cases hi err channels' 0) as [[HF' E']|[HE' E']];
    rewrite E, E'.
  - f_equal. apply mask_of_same_elements; [| |assumption].
    + eapply Forall_impl; [|exact HF]. cbn. lia.
    + eapply Forall_impl; [|exact HF']. cbn. lia.
  - exfalso. apply Exists_exists in HE'. destruct HE' as (s & Hs & Hn).
    rewrite Forall_forall in HF. apply Hn, HF, Hsame, Hs.
  - exfalso. apply Exists_exists in HE. destruct HE as (s & Hs & Hn).
    rewrite Forall_forall in HF'. apply Hn, HF', Hsame, Hs.
  - reflexivity.
Qed.

(** X8.  [configure_adc] takes the channel list as a set: two lists with the
    same members, in any order and with any repetitions, give the same
    packed value, or fail the same check. *)
Theorem config_value_channel_set (mode polarity : string)
                                 (channels channels' : list Z) (gain : Z) :
  (forall s, In s channels <-> In s channels') ->
  AD7193.config_value mode polarity channels gain =
  AD7193.config_value mode polarity channels' gain.
Proof.
  intros Hsame. unfold AD7193.config_value.
  now rewrite !(channel_loop_same_elements _ _ channels channels' Hsame).
Qed.

Lemma config_value_channel_set_reordered :
  (forall s, In s [3; 1; 3; 2] <-> In s [1; 2; 3]) /\
  AD7193.config_value "differential" "bipolar" [3; 1; 3; 2] 8 =
  AD7193.config_value "differential" "bipolar" [1; 2; 3] 8.
Proof.
  assert (Hsame : forall s, In s [3; 1; 3; 2] <-> In s [1; 2; 3]).
  { intros s. cbn. tauto. }
  split; [exact Hsame|].
  exact (config_value_channel_set "differential" "bipolar" _ _ 8 Hsame).
Defined.

(** X9.  [get_mode] tests bit 12 of the configuration register, the bit in which
    [configure_adc] packs the polarity.  On a register holding a value that
    [configure_adc] built, it answers 'Pseudo-Differential' when the
    polarity was 'unipolar' and 'Differential' when it was 'bipolar',
    whichever mode was asked for. *)
Theorem get_mode_reads_polarity (mode polarity : string) (channels : list Z)
                                (gain v : Z) (w : world) :
  AD7193.config_value mode polarity channels gain = Ok v ->
  from_bytes (map (miso w) (seq (rx_pos w) 3)) = v ->
  AD7193.get_mode w =
  (Ok (if (polarity =? "unipolar")%string
       then "Pseudo-Differential" else "Differential"),
   received Byte.x50 3 w).
Proof.
  intros Hv Hread. pose proof (config_value_ok_valid _ _ _ _ _ Hv) as Hvalid.
  destruct (config_value_packed _ _ _ _ Hvalid)
    as (code & _ & Hcode & Hm & _ & E).
  assert (Hc : 0 <= code < 8).
  { unfold gain_codes in Hcode. cbn [In] in Hcode. lia. }
  assert (Hbit : Z.testbit v 12 = (polarity =? "unipolar")%string).
  { assert (Hveq : v = unipolar_bit polarity * 2 ^ 12 + code * 2 ^ 8
                       + mask_of channels 0) by congruence.
    change (Z.testbit v 12) with (Z.testbit v (0 + 12)).
    rewrite <- Z.div_pow2_bits by lia. rewrite Hveq.
    change (2 ^ 8) with 256 in *. change (2 ^ 12) with 4096.
    replace ((unipolar_bit polarity * 4096 + code * 256 + mask_of channels 0)
             / 4096) with (unipolar_bit polarity).
    - destruct Hvalid as (Hpol & _). unfold adc_polarities in Hpol.
      cbn [In] in Hpol. destruct Hpol as [<-|[<-|[]]]; reflexivity.
    - assert (Hu : unipolar_bit polarity = 0 \/ unipolar_bit polarity = 1).
      { unfold unipolar_bit. destruct (polarity =? "bipolar")%string; auto. }
      Z.div_mod_to_equations. lia. }
  unfold AD7193.get_mode, bind. change 3 with (Z.of_nat 3).
  rewrite read_register_bytes. cbn [ret]. rewrite Hread.
  rewrite truthy_land_bit by lia. rewrite Hbit. reflexivity.
Qed.

Lemma get_mode_reads_polarity_differential_unipolar :
  AD7193.config_value "differential" "unipolar" [1] 1 = Ok 0x1001 /\
  from_bytes (map (miso (answering [Byte.x00; Byte.x10; Byte.x01]))
                  (seq (rx_pos (answering [Byte.x00; Byte.x10; Byte.x01])) 3))
    = 0x1001 /\
  fst (AD7193.get_mode (answering [Byte.x00; Byte.x10; Byte.x01])) =
    Ok "Pseudo-Differential".
Proof.
  assert (E : AD7193.config_value "differential" "unipolar" [1] 1
              = Ok 0x1001) by reflexivity.
  assert (R : from_bytes
                (map (miso (answering [Byte.x00; Byte.x10; Byte.x01]))
                   (seq (rx_pos (answering [Byte.x00; Byte.x10; Byte.x01])) 3))
              = 0x1001) by reflexivity.
  split; [exact E | split; [exact R |]].
  exact (f_equal fst (get_mode_reads_polarity _ _ _ _ _ _ E R)).
Defined.

(** What [initialize] puts on the wire. *)
Lemma initialize_writes (w : world) :
  AD7193.initialize w =
  (Ok tt, sent [Byte.x10; Byte.x00; Byte.x01; Byte.x17]
            (sent [Byte.x08; Byte.x08; Byte.x00; Byte.x60] w)).
Proof.
  unfold AD7193.initialize, bind, lift.
  change (to_bytes 0x080060 3) with (Ok [Byte.x08; Byte.x00; Byte.x60]).
  change (to_bytes 0x000117 3) with (Ok [Byte.x00; Byte.x01; Byte.x17]).
  cbn iota. now rewrite !write_register_bytes.
Qed.

(** X10.  [initialize] always succeeds, writing 0x080060 to the mode
    register and then 0x000117 to the configuration register.  That
    configuration is none that [configure_adc] builds: whatever the arguments, the packed
    value differs from 0x000117, whose bits 10..8 are 0b001, a code that
    [gain_map] does not contain. *)
Theorem initialize_configuration_foreign :
  (forall w,
     AD7193.initialize w =
     (Ok tt, sent [Byte.x10; Byte.x00; Byte.x01; Byte.x17]
               (sent [Byte.x08; Byte.x08; Byte.x00; Byte.x60] w))) /\
  (forall mode polarity channels gain,
     AD7193.config_value mode polarity channels gain <> Ok 0x000117).
Proof.
  split; [apply initialize_writes|].
  intros mode polarity channels gain Hv.
  pose proof (config_value_ok_valid _ _ _ _ _ Hv) as Hvalid.
  destruct (config_value_packed _ _ _ _ Hvalid)
    as (code & _ & Hcode & Hm & Hu & E).
  assert (Hveq : unipolar_bit polarity * 2 ^ 12 + code * 2 ^ 8
                 + mask_of channels 0 = 0x000117) by congruence.
  change (2 ^ 8) with 256 in *. change (2 ^ 12) with 4096 in *.
  unfold gain_codes in Hcode. cbn [In] in Hcode. lia.
Qed.

End AdcCompose.

(* ------------------------------------------------------------------------- *)
(** ** AD7193: the example script *)

Section AdcScript.

Lemma written_app (a b : list event) :
  written (a ++ b) = written a ++ written b.
Proof.
  induction a as [|e a IH]; [reflexivity|].
  destruct e; cbn; now rewrite IH.
Qed.

Lemma adc_reset_window (w : world) :
  AD7193.reset w =
  (Ok tt,
   mkWorld (wire w ++ [Select; Write (repeat Byte.xff 5); Release])
           (miso w) (rx_pos w) (clock w + xfer_time w + 10000)
           (xfer_time w)).
Proof.
  unfold AD7193.reset, bind, lift.
  change (bytes_of_ints (repeat 0xFF 5)) with (Ok (repeat Byte.xff 5)).
  cbn iota. unfold sleep. run_window. reflexivity.
Qed.

(** X11.  The example script never gets to poll the converter.  On any device,
    its set-up ends in the TypeError of [configure_adc], after exactly
    three writes: the reset sequence and the two registers of [initialize].
    Nothing has been read, and the configuration register holds the default
    of [initialize], not the configuration the script asked for. *)
Theorem adc_test_setup_stops (w : world) :
  fst (AdcTest.setup w) = Raise (TypeError "can't concat int to bytes") /\
  written (wire (snd (AdcTest.setup w))) =
    written (wire w) ++
    [repeat Byte.xff 5;
     [Byte.x08; Byte.x08; Byte.x00; Byte.x60];
     [Byte.x10; Byte.x00; Byte.x01; Byte.x17]] /\
  rx_pos (snd (AdcTest.setup w)) = rx_pos w /\
  clock (snd (AdcTest.setup w)) = clock w + 3 * xfer_time w + 10000.
Proof.
  assert (Hconf : forall w',
    AD7193.configure_adc "pseudo-differential" "unipolar" [1; 2; 3; 4] 32 w'
    = (Raise (TypeError "can't concat int to bytes"), w')).
  { intros w'. unfold AD7193.configure_adc, bind, lift.
    change (AD7193.config_value "pseudo-differential" "unipolar"
              [1; 2; 3; 4] 32) with (Ok 0x150F).
    apply write_register_int. }
  unfold AdcTest.setup, bind.
  rewrite adc_reset_window, initialize_writes, Hconf.
  cbn [fst snd sent wire rx_pos clock xfer_time miso].
  repeat apply conj; try reflexivity; [|lia].
  rewrite !written_app. cbn [written app]. now rewrite <- !app_assoc.
Qed.

End AdcScript.

(* ------------------------------------------------------------------------- *)
(** ** AD7193: register reads *)

Section AdcReads.


(** X13.  The reading methods never raise, whatever the chip answers, and their
    results are bounded: [read_data] returns a 24-bit value, [read_device_id]
    an 8-bit value, [get_active_channel] the low nibble of the status byte,
    a number in 0..15. *)
Theorem adc_reads_bounded (w : world) :
  (exists v,
     AD7193.read_data w = (Ok v, received Byte.x58 3 w) /\
     0 <= v < 2 ^ 24) /\
  (exists id,
     AD7193.read_device_id w = (Ok id, received Byte.x60 1 w) /\
     0 <= id < 2 ^ 8) /\
  (exists channel,
     AD7193.get_active_channel w = (Ok channel, received Byte.x40 1 w) /\
     channel = byte.unsigned (miso w (rx_pos w)) mod 16 /\
     0 <= channel <= 15).
Proof.
  assert (Hnibble : forall x, Z.land x 0x0F = x mod 16).
  { intros x. change 0x0F with (Z.ones 4). now rewrite Z.land_ones by lia. }
  repeat apply conj.
  - eexists. split.
    + unfold AD7193.read_data, bind. change 3 with (Z.of_nat 3).
      rewrite read_register_bytes. reflexivity.
    + apply (from_bytes_range (map (miso w) (seq (rx_pos w) 3))).
  - eexists. split.
    + unfold AD7193.read_device_id, bind. change 1 with (Z.of_nat 1).
      rewrite read_register_bytes. reflexivity.
    + apply (from_bytes_range (map (miso w) (seq (rx_pos w) 1))).
  - eexists. split; [|split].
    + unfold AD7193.get_active_channel, bind. change 1 with (Z.of_nat 1).
      rewrite read_register_bytes. reflexivity.
    + apply Hnibble.
    + rewrite Hnibble.
      pose proof (Z.mod_pos_bound (byte.unsigned (miso w (rx_pos w))) 16
                    eq_refl). lia.
Qed.

(** X14.  [read_data] inverts the big-endian encoding: if the chip shifts
    out the three bytes of a 24-bit value, most significant first, [read_data]
    returns that value. *)
Theorem read_data_round_trip (v : Z) (w : world) :
  0 <= v < 2 ^ 24 ->
  map (miso w) (seq (rx_pos w) 3) = be_bytes 3 v ->
  AD7193.read_data w = (Ok v, received Byte.x58 3 w).
Proof.
  intros Hv Hread. unfold AD7193.read_data, bind. change 3 with (Z.of_nat 3).
  rewrite read_register_bytes. cbn [ret]. rewrite Hread.
  rewrite from_bytes_be_bytes, Z.mod_small; [reflexivity|].
  now change (256 ^ Z.of_nat 3) with (2 ^ 24).
Qed.

Lemma read_data_round_trip_0x123456 :
  0 <= 0x123456 < 2 ^ 24 /\
  AD7193.read_data (answering [Byte.x12; Byte.x34; Byte.x56]) =
    (Ok 0x123456,
     received Byte.x58 3 (answering [Byte.x12; Byte.x34; Byte.x56])).
Proof.
  assert (Hv : 0 <= 0x123456 < 2 ^ 24) by (split; [lia | reflexivity]).
  split; [exact Hv|].
  exact (read_data_round_trip 0x123456
           (answering [Byte.x12; Byte.x34; Byte.x56]) Hv eq_refl).
Defined.

Lemma filter_sorted {A} (R : A -> A -> Prop) (f : A -> bool) (l : list A) :
  StronglySorted R l -> StronglySorted R (filter f l).
Proof.
  induction 1 as [|a l Hs IH Ha]; cbn; [constructor|].
  destruct (f a); [|assumption]. constructor; [assumption|].
  rewrite Forall_forall in *. intros x Hx. apply filter_In in Hx.
  now apply Ha.
Qed.

(** X15.  Whatever the configuration register holds, [get_active_channels]
    decodes a strictly increasing list of at most eight channel numbers in
    0..7, and only the low byte of the register matters. *)
Theorem active_channels_shape (config : Z) :
  StronglySorted Z.lt (AD7193.active_channels_of config) /\
  (forall k, In k (AD7193.active_channels_of config) -> 0 <= k <= 7) /\
  (List.length (AD7193.active_channels_of config) <= 8)%nat /\
  AD7193.active_channels_of config =
    AD7193.active_channels_of (Z.land config 0xFF).
Proof.
  repeat apply conj.
  - rewrite active_channels_filter. apply filter_sorted. cbn.
    repeat (constructor; [|repeat constructor; lia]). constructor.
  - intros k Hk. apply in_active_channels in Hk. lia.
  - rewrite active_channels_filter.
    apply (Nat.le_trans _ _ _ (filter_length_le _ _)). reflexivity.
  - rewrite !active_channels_filter. apply filter_ext_in. intros k Hk.
    apply in_range in Hk. change (Z.of_nat 8) with 8 in Hk.
    rewrite !truthy_land_bit by lia. change 0xFF with (Z.ones 8).
    rewrite Z.land_spec, Z.ones_spec_low by lia. now rewrite andb_true_r.
Qed.

End AdcReads.

(* ------------------------------------------------------------------------- *)
(** ** AD7193: the ends of the waiting loop *)

Section AdcTimeoutBound.

(** X16.  The waiting loop has no bound of its own on the number of polls:
    against a chip that is never ready, as long as no reading of the clock
    makes [(now - start) > timeout] true (a clock that has stopped, say),
    [wait_for_data_ready] neither returns nor raises, however many turns
    it is given. *)
Theorem wait_runs_on_unexpired (timeout : float) (monotonic : nat -> float)
                               (w : world) :
  never_ready w ->
  (forall j, expired (monotonic 0%nat) timeout (monotonic (S j)) = false) ->
  forall fuel, AD7193.wait_for_data_ready fuel timeout monotonic w = None.
Proof.
  intros Hnever Hclock fuel. unfold AD7193.wait_for_data_ready.
  apply wait_loop_runs_on; [exact Hnever|]. intros j. apply Hclock.
Qed.

Lemma wait_runs_on_unexpired_still_clock :
  never_ready stuck /\
  (forall j, expired (still_clock 0) 1 (still_clock (S j)) = false) /\
  AD7193.wait_for_data_ready 1000 1 still_clock stuck = None.
Proof.
  assert (Hnever : never_ready stuck) by (intros n; reflexivity).
  assert (Hclock : forall j,
            expired (still_clock 0) 1 (still_clock (S j)) = false)
    by (intros j; reflexivity).
  split; [exact Hnever | split; [exact Hclock |]].
  exact (wait_runs_on_unexpired 1 still_clock stuck Hnever Hclock 1000%nat).
Defined.

(** X17.  A timeout that has run out by the first check cannot be waited
    out: if the first poll finds the chip busy and the reading of the
    clock taken after it already makes [(now - start) > timeout] true,
    [wait_for_data_ready] raises [Timeout] at once, after that single poll
    and without sleeping. *)
Theorem wait_short_timeout (timeout : float) (monotonic : nat -> float)
                           (w : world) (fuel : nat) :
  busy (miso w (rx_pos w)) = true ->
  expired (monotonic 0%nat) timeout (monotonic 1%nat) = true ->
  AD7193.wait_for_data_ready (S fuel) timeout monotonic w =
    Some (Raise AD7193.Timeout, polled w) /\
  clock (polled w) = clock w + xfer_time w.
Proof.
  intros Hb Ht. split; [|reflexivity].
  unfold AD7193.wait_for_data_ready. cbn [AD7193.wait_loop].
  now rewrite wait_turn_expired.
Qed.

Lemma wait_short_timeout_zero :
  busy (miso stuck (rx_pos stuck)) = true /\
  expired (counting_clock 0) 0 (counting_clock 1) = true /\
  AD7193.wait_for_data_ready 1 0 counting_clock stuck =
    Some (Raise AD7193.Timeout, polled stuck).
Proof.
  assert (Hb : busy (miso stuck (rx_pos stuck)) = true) by reflexivity.
  assert (Ht : expired (counting_clock 0) 0 (counting_clock 1) = true)
    by reflexivity.
  split; [exact Hb | split; [exact Ht |]].
  exact (proj1 (wait_short_timeout 0 counting_clock stuck 0 Hb Ht)).
Defined.

End AdcTimeoutBound.
